(** * status-client: the reporting pipeline and the throughput tracker

    A shallow embedding of the TypeScript sources

      - [src/reporter/Reporter.ts]  (class [Reporter]),
      - [src/index.ts]              (class [MonitorClient]),
      - the two revisions of [SystemCollector] that derive network
        throughput from cumulative byte counters
        ([src/unnamed/part_003] and [src/unnamed/part_004]),
      - [src/config/ConfigManager.ts] (class [ConfigManager]),

    followed by the properties the design document states about them.

    Conventions.
      - JavaScript numbers that hold counts, sizes, HTTP statuses and
        millisecond timestamps are integers: [Z].  Derived rates are
        quotients of such integers: [Q], the exact value of which the
        IEEE double computed by the program is the rounding.
      - JavaScript strings are sequences of UTF-16 code units.
      - Mutable objects are records threaded through the functions; what
        lives outside the process (disk, network, uuid generator, timers)
        is the [World].
      - An operation that can throw returns a [completion].
      - [Logger] only prints to the console ([src/utils/logger.ts]); on
        the paths modelled here it is handed [Error] instances and plain
        strings, so it neither throws nor touches program state, and the
        logging calls are left out. *)

From Stdlib Require Import List ZArith NArith QArith Qminmax Lia Bool.
From Stdlib Require Ascii String.
Import ListNotations.
Import String.StringSyntax.
Delimit Scope string_scope with string.

Set Implicit Arguments.

(* ------------------------------------------------------------------ *)
(** ** JavaScript values used by the program *)

Module JsString.

(** A string is a list of UTF-16 code units. *)
Definition t := list N.

(** ECMAScript WhiteSpace and LineTerminator code points, the ones
    [String.prototype.trim] strips. *)
Definition is_white_space (c : N) : bool :=
  match c with
  | 0x0009 | 0x000A | 0x000B | 0x000C | 0x000D | 0x0020
  | 0x00A0 | 0x1680
  | 0x2000 | 0x2001 | 0x2002 | 0x2003 | 0x2004 | 0x2005
  | 0x2006 | 0x2007 | 0x2008 | 0x2009 | 0x200A
  | 0x2028 | 0x2029 | 0x202F | 0x205F | 0x3000 | 0xFEFF => true
  | _ => false
  end%N.

Fixpoint trimStart (s : t) : t :=
  match s with
  | c :: s' => if is_white_space c then trimStart s' else s
  | [] => []
  end.

Definition trimEnd (s : t) : t := rev (trimStart (rev s)).

Definition trim (s : t) : t := trimEnd (trimStart s).

(** ToBoolean on a string: only the empty string is falsy. *)
Definition truthy (s : t) : bool :=
  match s with
  | [] => false
  | _ :: _ => true
  end.

End JsString.

Module JsArray.

(** [arr.slice(start)] with an integer [start]: a negative [start]
    counts from the end, and the resulting index is clamped to
    [0 .. length].  Note that [-0] is [0]. *)
Definition slice (A : Type) (arr : list A) (start : Z) : list A :=
  let len := Z.of_nat (length arr) in
  let k := if (start <? 0)%Z then Z.max (len + start) 0 else Z.min start len in
  skipn (Z.to_nat k) arr.

(** [arr.push(x)] *)
Definition push (A : Type) (arr : list A) (x : A) : list A := arr ++ [x].

End JsArray.

(** The outcome of evaluating a statement or call that may throw. *)
Inductive completion (A : Type) : Type :=
| Normal (a : A)
| Throw.
Arguments Normal {A} a.
Arguments Throw {A}.

(* ------------------------------------------------------------------ *)
(** ** [src/config/types.ts] *)

Record ClientConfig : Type := mkConfig {
  clientName : JsString.t;
  clientTags : list JsString.t;
  clientPurpose : JsString.t;
  serverUrl : JsString.t;
  reportInterval : Z;
  minReportInterval : Z;
  maxRetries : Z;
  cacheSize : Z
}.

(* ------------------------------------------------------------------ *)
(** ** [src/reporter/Reporter.ts] *)

Module Reporter.
Section WithPayload.

(** The cache logic stores and posts payloads without inspecting
    them. *)
Context {ReportPayload : Type}.
Context {StaticSystemInfo : Type}.

(** [interface CachedReport] of [src/reporter/types.ts]. *)
Record CachedReport : Type := mkCached {
  payload : ReportPayload;
  timestamp : Z;
  retryCount : Z
}.

(** What [failed-reports.json] holds: text [JSON.parse] rejects, or
    the serialisation of an entry array. *)
Inductive CacheFile : Type :=
| Unparsable
| Entries (l : list CachedReport).

(** The cache directory.  [existsSync] never throws; [mkdirSync],
    [readFileSync] and [writeFileSync] throw when the corresponding
    flag is set. *)
Record Fs : Type := mkFs {
  dir_exists : bool;
  mkdir_fails : bool;
  id_file : option JsString.t;
  id_read_fails : bool;
  id_write_fails : bool;
  cache_file : option CacheFile;
  cache_read_fails : bool;
  cache_write_fails : bool;
  write_calls : nat
}.

(** What [axios.post] does: resolves with a response carrying a
    status, or rejects without one. *)
Inductive Outcome : Type :=
| Response (status : Z)
| Rejected.

Record World : Type := mkWorld {
  fs : Fs;
  posts : list ReportPayload;   (* bodies POSTed so far, oldest first *)
  uuid_calls : nat;             (* calls of [uuidv4] so far *)
  timers : list Z;              (* periods of the armed [setInterval]s *)
  cycles : nat                  (* [collectAndReport] invocations launched *)
}.

Definition with_fs (w : World) (f : Fs) : World :=
  mkWorld f (posts w) (uuid_calls w) (timers w) (cycles w).

(** The [n]-th token the uuid generator hands out. *)
Variable uuidv4 : nat -> JsString.t.

(** The server and the network: the outcome of a POST given the
    bodies posted before it and its own body. *)
Variable respond : list ReportPayload -> ReportPayload -> Outcome.

Definition call_uuidv4 (w : World) : JsString.t * World :=
  (uuidv4 (uuid_calls w),
   mkWorld (fs w) (posts w) (S (uuid_calls w)) (timers w) (cycles w)).

Definition axios_post (w : World) (body : ReportPayload) : Outcome * World :=
  (respond (posts w) body,
   mkWorld (fs w) (posts w ++ [body]) (uuid_calls w) (timers w) (cycles w)).

(** [fs.mkdirSync(cacheDir, { recursive: true })] *)
Definition mkdirSync (f : Fs) : completion Fs :=
  if mkdir_fails f then Throw
  else Normal (mkFs true (mkdir_fails f) (id_file f) (id_read_fails f)
                 (id_write_fails f) (cache_file f) (cache_read_fails f)
                 (cache_write_fails f) (write_calls f)).

(** [fs.writeFileSync(idFilePath, newId, 'utf-8')] *)
Definition writeIdFile (f : Fs) (s : JsString.t) : completion unit * Fs :=
  if id_write_fails f || negb (dir_exists f)
  then (Throw,
        mkFs (dir_exists f) (mkdir_fails f) (id_file f) (id_read_fails f)
          (id_write_fails f) (cache_file f) (cache_read_fails f)
          (cache_write_fails f) (S (write_calls f)))
  else (Normal tt,
        mkFs (dir_exists f) (mkdir_fails f) (Some s) (id_read_fails f)
          (id_write_fails f) (cache_file f) (cache_read_fails f)
          (cache_write_fails f) (S (write_calls f))).

(** [fs.writeFileSync(this.cacheFilePath, JSON.stringify(this.cache, null, 2), 'utf-8')] *)
Definition writeCacheFile (f : Fs) (l : list CachedReport) : completion unit * Fs :=
  if cache_write_fails f || negb (dir_exists f)
  then (Throw,
        mkFs (dir_exists f) (mkdir_fails f) (id_file f) (id_read_fails f)
          (id_write_fails f) (cache_file f) (cache_read_fails f)
          (cache_write_fails f) (S (write_calls f)))
  else (Normal tt,
        mkFs (dir_exists f) (mkdir_fails f) (id_file f) (id_read_fails f)
          (id_write_fails f) (Some (Entries l)) (cache_read_fails f)
          (cache_write_fails f) (S (write_calls f))).

(** [class Reporter]: the fields that hold state. *)
Record t : Type := mkReporter {
  clientId : JsString.t;
  config : ClientConfig;
  cache : list CachedReport;
  staticInfo : option StaticSystemInfo
}.

Definition with_cache (r : t) (c : list CachedReport) : t :=
  mkReporter (clientId r) (config r) c (staticInfo r).

(** The [try] block of [loadOrGenerateClientId]. *)
Definition loadOrGenerateClientId_try (w : World) : completion JsString.t * World :=
  match (if negb (dir_exists (fs w)) then mkdirSync (fs w) else Normal (fs w)) with
  | Throw => (Throw, w)
  | Normal f1 =>
      let w1 := with_fs w f1 in
(* const newId = uuidv4(); fs.writeFileSync(...); return newId; *)
let generate :=
  let '(newId, w2) := call_uuidv4 w1 in
  match writeIdFile (fs w2) newId with
  | (Normal _, f) => (Normal newId, with_fs w2 f)
  | (Throw, f) => (Throw, with_fs w2 f)
  end in
match id_file f1 with
| Some content =>
    if id_read_fails f1 then (Throw, w1)
    else
      let id := JsString.trim content in
      if JsString.truthy id then (Normal id, w1) else generate
| None => generate
end
end.

(** [loadOrGenerateClientId(cacheDir)]: the [try] block, and
    [return uuidv4()] in the [catch]. *)
Definition loadOrGenerateClientId (w : World) : completion JsString.t * World :=
  match loadOrGenerateClientId_try w with
  | (Normal id, w') => (Normal id, w')
  | (Throw, w') => let '(id, w'') := call_uuidv4 w' in (Normal id, w'')
  end.

(** [saveCacheToDisk()]: every exception is caught and logged. *)
Definition saveCacheToDisk (r : t) (w : World) : World :=
  match (if negb (dir_exists (fs w)) then mkdirSync (fs w) else Normal (fs w)) with
  | Throw => w
  | Normal f1 => with_fs w (snd (writeCacheFile f1 (cache r)))
  end.

(** [loadCacheFromDisk()] *)
Definition loadCacheFromDisk (r : t) (w : World) : t :=
  match cache_file (fs w) with
  | Some content =>
      if cache_read_fails (fs w) then with_cache r []
      else match content with
           | Entries l => with_cache r l
           | Unparsable => with_cache r []
           end
  | None => r
  end.

(** [constructor(config, cacheDir)] *)
Definition new (cfg : ClientConfig) (w : World) : completion t * World :=
  match loadOrGenerateClientId w with
  | (Normal id, w1) => (Normal (loadCacheFromDisk (mkReporter id cfg [] None) w1), w1)
  | (Throw, w1) => (Throw, w1)
  end.

(** [setStaticInfo(staticInfo)] *)
Definition setStaticInfo (r : t) (si : StaticSystemInfo) : t :=
  mkReporter (clientId r) (config r) (cache r) (Some si).

(** [cacheFailedReport(payload)]; [now] is what [Date.now()] returns. *)
Definition cacheFailedReport (r : t) (w : World) (p : ReportPayload) (now : Z)
  : t * World :=
  let cachedReport := mkCached p now 0 in
  let pushed := JsArray.push (cache r) cachedReport in
  let r' :=
    if (Z.of_nat (length pushed) >? cacheSize (config r))%Z
    then with_cache r (JsArray.slice pushed (- cacheSize (config r)))
    else with_cache r pushed in
  (r', saveCacheToDisk r' w).

(** [clearCache()] *)
Definition clearCache (r : t) (w : World) : t * World :=
  if (Z.of_nat (length (cache r)) >? 0)%Z
  then let r' := with_cache r [] in (r', saveCacheToDisk r' w)
  else (r, w).

(** [getCacheSize()] *)
Definition getCacheSize (r : t) : Z := Z.of_nat (length (cache r)).

(** [response.status >= 200 && response.status < 300] *)
Definition is_2xx (status : Z) : bool :=
  (status >=? 200)%Z && (status <? 300)%Z.

(** Whether the [try] block around a POST completes normally: a
    response outside 2xx makes the code throw by itself. *)
Definition delivered (o : Outcome) : bool :=
  match o with
  | Response status => is_2xx status
  | Rejected => false
  end.

(** [report(payload)]: [Normal tt] when the promise resolves, [Throw]
    when the error is rethrown to the caller. *)
Definition report (r : t) (w : World) (p : ReportPayload) (now : Z)
  : completion unit * t * World :=
  let '(o, w1) := axios_post w p in
  if delivered o then
    let '(r', w2) := clearCache r w1 in (Normal tt, r', w2)
  else
    let '(r', w2) := cacheFailedReport r w1 p now in (Throw, r', w2).

(** [cachedReport.retryCount++] *)
Definition bump (c : CachedReport) : CachedReport :=
  mkCached (payload c) (timestamp c) (retryCount c + 1).

(** The [for (const cachedReport of this.cache)] loop of
    [retryCachedReports]; [failedReports] is the array being built. *)
Fixpoint retry_loop (cfg : ClientConfig) (todo failedReports : list CachedReport)
    (w : World) : list CachedReport * World :=
  match todo with
  | [] => (failedReports, w)
  | cachedReport :: rest =>
      let '(o, w1) := axios_post w (payload cachedReport) in
      if delivered o then retry_loop cfg rest failedReports w1
      else
        let cachedReport' := bump cachedReport in
        if (retryCount cachedReport' <? maxRetries cfg)%Z
        then retry_loop cfg rest (JsArray.push failedReports cachedReport') w1
        else retry_loop cfg rest failedReports w1
  end.

(** [retryCachedReports()] *)
Definition retryCachedReports (r : t) (w : World) : t * World :=
  if (Z.of_nat (length (cache r)) =? 0)%Z then (r, w)
  else
    let '(failedReports, w1) := retry_loop (config r) (cache r) [] w in
    let r' := with_cache r failedReports in
    (r', saveCacheToDisk r' w1).

End WithPayload.
Arguments CachedReport : clear implicits.
Arguments CacheFile : clear implicits.
Arguments Fs : clear implicits.
Arguments World : clear implicits.
Arguments t : clear implicits.
End Reporter.

(* ------------------------------------------------------------------ *)
(** ** [SystemCollector]: network throughput from cumulative counters

    The repository carries two revisions of the throughput derivation.
    Both keep the previous totals and timestamp in the collector and
    divide the byte delta by the elapsed seconds; they differ in what
    they do with a negative delta and with a non-positive elapsed
    time. *)

(** [stat.rx_bytes || 0]: an absent reading counts as 0. *)
Definition or0 (x : option Z) : Z :=
  match x with
  | Some v => v
  | None => 0%Z
  end.

(** The two fields of [si.Systeminformation.NetworkStatsData] the
    collector reads. *)
Record NetworkStatsData : Type := mkStats {
  rx_bytes : option Z;
  tx_bytes : option Z
}.

(** [{ upload, download }], bytes per second. *)
Record Speeds : Type := mkSpeeds {
  upload : Q;
  download : Q
}.

(** [a > b] and [a <= b] on numbers. *)
Definition Qgtb (a b : Q) : bool := negb (Qle_bool a b).

(** Elapsed seconds between two millisecond timestamps:
    [(timestamp - last) / 1000]. *)
Definition seconds_between (timestamp last : Z) : Q :=
  inject_Z (timestamp - last) / inject_Z 1000.

(** The revision with a [calculateNetworkSpeed] method
    ([src/unnamed/part_004]).  The copy of the collector kept in
    [src/collector/SystemCollector.test.ts] first filters the
    interfaces and then runs the same derivation. *)
Module SpeedCollector.

Record NetworkStats : Type := mkLast {
  rx : Z;
  tx : Z;
  timestamp : Z
}.

(** [class SystemCollector]: the field that holds state. *)
Record t : Type := mkCollector {
  lastNetworkStats : option NetworkStats
}.

(** [networkStats.reduce((sum, stat) => sum + (stat.rx_bytes || 0), 0)] *)
Definition sum_rx (networkStats : list NetworkStatsData) : Z :=
  fold_left (fun sum stat => (sum + or0 (rx_bytes stat))%Z) networkStats 0%Z.

Definition sum_tx (networkStats : list NetworkStatsData) : Z :=
  fold_left (fun sum stat => (sum + or0 (tx_bytes stat))%Z) networkStats 0%Z.

(** [calculateNetworkSpeed(networkStats, timestamp)] *)
Definition calculateNetworkSpeed (c : t) (networkStats : list NetworkStatsData)
    (timestamp : Z) : Speeds * t :=
  if (Z.of_nat (length networkStats) =? 0)%Z then (mkSpeeds 0 0, c)
  else
    let totalRx := sum_rx networkStats in
    let totalTx := sum_tx networkStats in
    match lastNetworkStats c with
    | None =>
        (mkSpeeds 0 0, mkCollector (Some (mkLast totalRx totalTx timestamp)))
    | Some last =>
        let timeDelta := seconds_between timestamp (SpeedCollector.timestamp last) in
        if Qle_bool timeDelta 0 then (mkSpeeds 0 0, c)
        else
          let rxDelta := (totalRx - rx last)%Z in
          let txDelta := (totalTx - tx last)%Z in
          let download := Qmax 0 (inject_Z rxDelta / timeDelta) in
          let upload := Qmax 0 (inject_Z txDelta / timeDelta) in
          (mkSpeeds upload download,
           mkCollector (Some (mkLast totalRx totalTx timestamp)))
    end.

End SpeedCollector.

(** The revision that computes the delta inline in
    [collectDynamicStatus] ([src/unnamed/part_003]). *)
Module DeltaCollector.

Record NetSnapshot : Type := mkSnapshot {
  rx : Z;
  tx : Z;
  time : Z
}.

(** [class SystemCollector]: the field that holds state. *)
Record t : Type := mkCollector {
  lastNetSnapshot : option NetSnapshot
}.

(** What one pass of the [for (const iface of ifaces)] loop meets:
    [si.networkStats(iface.iface)] throws, returns an empty array, or
    returns an array whose first element is [stat]. *)
Inductive IfaceStats : Type :=
| StatsThrew
| NoStat
| Stat (stat : NetworkStatsData).

(** The loop over the interfaces that are up, external and not
    loopback: [(totalRx, totalTx)]. *)
Definition sum_ifaces (ifaces : list IfaceStats) : Z * Z :=
  fold_left
    (fun '(totalRx, totalTx) i =>
       match i with
       | Stat stat =>
           ((totalRx + or0 (rx_bytes stat))%Z, (totalTx + or0 (tx_bytes stat))%Z)
       | NoStat => (totalRx, totalTx)
       | StatsThrew => (totalRx, totalTx)
       end)
    ifaces (0%Z, 0%Z).

(** The part of [collectDynamicStatus] from [let upload = 0] to the
    assignment of [this.lastNetSnapshot]. *)
Definition networkSpeed (c : t) (totalRx totalTx timestamp : Z) : Speeds * t :=
  let '(upload, download) :=
    match lastNetSnapshot c with
    | Some last =>
        let dt := seconds_between timestamp (time last) in
        if Qgtb dt 0
        then (inject_Z (totalTx - tx last) / dt, inject_Z (totalRx - rx last) / dt)
        else (0, 0)
    | None => (0, 0)
    end in
  (mkSpeeds upload download,
   mkCollector (Some (mkSnapshot totalRx totalTx timestamp))).

Section WithMetrics.

(** The CPU, memory and disk figures of a sample; they come
    straight from [systeminformation] and do not depend on the
    collector's state. *)
Context {Metrics : Type}.

(** [interface DynamicSystemStatus] *)
Record DynamicSystemStatus : Type := mkStatus {
  metrics : Metrics;
  networkUpload : Q;
  networkDownload : Q;
  timestamp : Z
}.

(** What the [systeminformation] calls of one collection return. *)
Record Readings : Type := mkReadings {
  readMetrics : Metrics;
  ifaces : list IfaceStats
}.

(** [collectDynamicStatus()]; [now] is what [Date.now()] returns and
    [readings] is [Throw] when a [systeminformation] call outside
    the interface loop throws. *)
Definition collectDynamicStatus (c : t) (now : Z) (readings : completion Readings)
  : completion DynamicSystemStatus * t :=
  match readings with
  | Throw => (Throw, c)
  | Normal rd =>
      let '(totalRx, totalTx) := sum_ifaces (ifaces rd) in
      let '(s, c') := networkSpeed c totalRx totalTx now in
      (Normal (mkStatus (readMetrics rd) (upload s) (download s) now), c')
  end.

End WithMetrics.
Arguments DynamicSystemStatus : clear implicits.
Arguments Readings : clear implicits.

End DeltaCollector.

(* ------------------------------------------------------------------ *)
(** ** [src/index.ts] *)

Module MonitorClient.
Section WithPayload.

Context {ReportPayload : Type}.
Context {StaticSystemInfo : Type}.

Variable respond : list ReportPayload -> ReportPayload -> Reporter.Outcome.

(** [class MonitorClient]: the fields that hold state. *)
Record t : Type := mkClient {
  config : ClientConfig;
  reporter : Reporter.t ReportPayload StaticSystemInfo;
  intervalId : option nat;
  isRunning : bool
}.

(** [startReportingLoop()]: launches one [collectAndReport()] without
    awaiting it and arms the interval.  The handle [setInterval]
    returns is the position of the new timer. *)
Definition startReportingLoop (c : t) (w : Reporter.World ReportPayload)
  : t * Reporter.World ReportPayload :=
  let id := length (Reporter.timers w) in
  (mkClient (config c) (reporter c) (Some id) (isRunning c),
   Reporter.mkWorld (Reporter.fs w) (Reporter.posts w) (Reporter.uuid_calls w)
     (Reporter.timers w ++ [reportInterval (config c)]) (S (Reporter.cycles w))).

(** [start()]; [static] is what [collector.collectStaticInfo()]
    settles to.  [Normal tt] when the promise resolves, [Throw] when
    it rejects. *)
Definition start (c : t) (w : Reporter.World ReportPayload)
    (static : completion StaticSystemInfo)
  : completion unit * t * Reporter.World ReportPayload :=
  if isRunning c then (Normal tt, c, w)
  else
    match static with
    | Throw => (Throw, c, w)
    | Normal staticInfo =>
        let r1 := Reporter.setStaticInfo (reporter c) staticInfo in
        let '(r2, w1) := Reporter.retryCachedReports respond r1 w in
        let c1 := mkClient (config c) r2 (intervalId c) true in
        let '(c2, w2) := startReportingLoop c1 w1 in
        (Normal tt, c2, w2)
    end.

(** [getIsRunning()] *)
Definition getIsRunning (c : t) : bool := isRunning c.

End WithPayload.
Arguments t : clear implicits.
End MonitorClient.

(* ------------------------------------------------------------------ *)
(** ** Sequences of calls *)

Section Runs.

Context {ReportPayload : Type}.
Context {StaticSystemInfo : Type}.
Variable respond : list ReportPayload -> ReportPayload -> Reporter.Outcome.

(** [cacheFailedReport] called once per element, left to right; each
    element is the payload and the clock reading of its call. *)
Fixpoint cacheAll (r : Reporter.t ReportPayload StaticSystemInfo)
    (w : Reporter.World ReportPayload) (calls : list (ReportPayload * Z))
  : Reporter.t ReportPayload StaticSystemInfo * Reporter.World ReportPayload :=
  match calls with
  | [] => (r, w)
  | (p, now) :: rest =>
      let '(r', w') := Reporter.cacheFailedReport r w p now in
      cacheAll r' w' rest
  end.

(** [retryCachedReports] called [n] times in a row. *)
Fixpoint retryRounds (n : nat) (r : Reporter.t ReportPayload StaticSystemInfo)
    (w : Reporter.World ReportPayload)
  : Reporter.t ReportPayload StaticSystemInfo * Reporter.World ReportPayload :=
  match n with
  | O => (r, w)
  | S n' =>
      let '(r', w') := Reporter.retryCachedReports respond r w in
      retryRounds n' r' w'
  end.

(** The entry at position [i] of the cache is posted after the [i]
    entries before it: this is the outcome of its delivery attempt
    in a retry pass started in [w]. *)
Definition attempt (w : Reporter.World ReportPayload)
    (todo : list (Reporter.CachedReport ReportPayload)) (i : nat)
    (e : Reporter.CachedReport ReportPayload) : Reporter.Outcome :=
  respond (Reporter.posts w ++ map (@Reporter.payload _) (firstn i todo))
    (Reporter.payload e).

End Runs.

(** What the identity file yields and what can go wrong around it, read
    off the state of the cache directory. *)
Section Identity.

Context {ReportPayload : Type}.

(** [mkdirSync] is called and throws. *)
Definition mkdir_throws (f : Reporter.Fs ReportPayload) : bool :=
  negb (Reporter.dir_exists f) && Reporter.mkdir_fails f.

(** [client-id.txt] is there and [readFileSync] throws on it. *)
Definition read_throws (f : Reporter.Fs ReportPayload) : bool :=
  match Reporter.id_file f with
  | Some _ => Reporter.id_read_fails f
  | None => false
  end.

(** The persisted identifier, when there is one to be read: the
    directory is usable, the file exists, reading it succeeds, and
    what it holds is not blank. *)
Definition persistedId (f : Reporter.Fs ReportPayload) : option JsString.t :=
  if mkdir_throws f || read_throws f then None
  else match Reporter.id_file f with
       | Some content =>
           match JsString.trim content with
           | [] => None
           | id => Some id
           end
       | None => None
       end.

End Identity.

(** The last [n] elements of a list. *)
Definition lastn (A : Type) (n : nat) (l : list A) : list A :=
  skipn (length l - n) l.

(* ------------------------------------------------------------------ *)
(** ** Concrete data for the closed statements *)

Module Sample.

Definition cfg (retries size : Z) : ClientConfig :=
  mkConfig [] [] [] [] 60000 10000 retries size.

Definition fs0 : Reporter.Fs nat :=
  Reporter.mkFs true false None false false None false false 0.

Definition world0 : Reporter.World nat :=
  Reporter.mkWorld fs0 [] 0 [] 0.

Definition reporter0 (retries size : Z) : Reporter.t nat unit :=
  Reporter.mkReporter [105%N; 100%N] (cfg retries size) [] None.

(** A server that is down, one that accepts everything, and one that
    answers 500. *)
Definition down (_ : list nat) (_ : nat) : Reporter.Outcome := Reporter.Rejected.
Definition up (_ : list nat) (_ : nat) : Reporter.Outcome := Reporter.Response 200.
Definition broken (_ : list nat) (_ : nat) : Reporter.Outcome := Reporter.Response 500.

(** A generator whose [n]-th token is the one-unit string [n + 97]. *)
Definition uuid (n : nat) : JsString.t := [N.of_nat n + 97]%N.

(** A reporter holding a backlog. *)
Definition holding (retries size : Z) (backlog : list (Reporter.CachedReport nat))
  : Reporter.t nat unit :=
  Reporter.mkReporter [105%N; 100%N] (cfg retries size) backlog None.

(** A cache directory that cannot be written to, and one whose
    [failed-reports.json] does not parse. *)
Definition readonly : Reporter.World nat :=
  Reporter.mkWorld
    (Reporter.mkFs true false None false true None false true 0) [] 0 [] 0.

Definition corrupt : Reporter.World nat :=
  Reporter.mkWorld
    (Reporter.mkFs true false None false false (Some Reporter.Unparsable) false false 0)
    [] 0 [] 0.

(** A client that has not been started, and what [start] makes of it
    when the static information is collected and the server is up. *)
Definition stopped : MonitorClient.t nat unit :=
  MonitorClient.mkClient (cfg 3 100) (reporter0 3 100) None false.

Definition started : completion unit * MonitorClient.t nat unit * Reporter.World nat :=
  MonitorClient.start up stopped world0 (Normal tt).

Definition running : MonitorClient.t nat unit := snd (fst started).

Definition running_world : Reporter.World nat := snd started.

End Sample.

(* ------------------------------------------------------------------ *)
(** ** More of JavaScript's strings *)

Module JsText.

(** A string literal of the source (ASCII), as code units. *)
Definition lit (s : String.string) : JsString.t :=
  map (fun a => N.of_nat (Ascii.nat_of_ascii a)) (String.list_ascii_of_string s).
Arguments lit s%_string.

(** [a === b] on strings. *)
Definition strictEquals (a b : JsString.t) : bool :=
  if list_eq_dec N.eq_dec a b then true else false.

(** [s.startsWith(prefix)] *)
Fixpoint startsWith (s prefix : JsString.t) : bool :=
  match prefix, s with
  | [], _ => true
  | _ :: _, [] => false
  | p :: prefix', c :: s' => N.eqb p c && startsWith s' prefix'
  end.

(** [s.includes(search)] *)
Fixpoint includes (s search : JsString.t) : bool :=
  startsWith s search ||
  match s with
  | [] => false
  | _ :: s' => includes s' search
  end.

(** [s.split(sep)] for a separator [sep] of one code unit; the result
    is never the empty array. *)
Fixpoint split (sep : N) (s : JsString.t) : list JsString.t :=
  match s with
  | [] => [[]]
  | c :: s' =>
      if N.eqb c sep then [] :: split sep s'
      else match split sep s' with
           | part :: parts => (c :: part) :: parts
           | [] => [[c]]
           end
  end.

(** [s.replace(/_/g, ' ')] *)
Definition replaceUnderscores (s : JsString.t) : JsString.t :=
  map (fun c => if N.eqb c 95 then 32%N else c) s.

End JsText.

(* ------------------------------------------------------------------ *)
(** ** [src/config/ConfigManager.ts] *)

Module ConfigManager.

(** What the parsed file holds under [clientTags]: nothing, an array of
    strings, or a value [Array.isArray] rejects. *)
Inductive TagsField : Type :=
| TagsAbsent
| TagsArray (tags : list JsString.t)
| TagsOther.

(** [Partial<ClientConfig>]: [None] for a key the file does not have. *)
Record PartialConfig : Type := mkPartial {
  p_clientName : option JsString.t;
  p_clientTags : TagsField;
  p_clientPurpose : option JsString.t;
  p_serverUrl : option JsString.t;
  p_reportInterval : option Z;
  p_minReportInterval : option Z;
  p_maxRetries : option Z;
  p_cacheSize : option Z
}.

(** [getDefaultConfig()]; [hostname] is what [os.hostname()] returns. *)
Definition getDefaultConfig (hostname : JsString.t) : ClientConfig :=
  mkConfig hostname [] [] (JsText.lit "http://localhost:7788") 60000 10000 3 100.

(** [{ ...defaults, ...config }], one key. *)
Definition spread (A : Type) (default : A) (given : option A) : A :=
  match given with
  | Some v => v
  | None => default
  end.

(** [validateConfig(config)] *)
Definition validateConfig (hostname : JsString.t) (config : PartialConfig)
  : ClientConfig :=
  let defaults := getDefaultConfig hostname in
  (* merged = { ...defaults, ...config } *)
  let m_clientName := spread (clientName defaults) (p_clientName config) in
  let m_clientPurpose := spread (clientPurpose defaults) (p_clientPurpose config) in
  let m_serverUrl := spread (serverUrl defaults) (p_serverUrl config) in
  let m_reportInterval := spread (reportInterval defaults) (p_reportInterval config) in
  let m_minReportInterval :=
    spread (minReportInterval defaults) (p_minReportInterval config) in
  let m_maxRetries := spread (maxRetries defaults) (p_maxRetries config) in
  let m_cacheSize := spread (cacheSize defaults) (p_cacheSize config) in
  (* if (!merged.clientName || merged.clientName.trim() === '') *)
  let v_clientName :=
    if negb (JsString.truthy m_clientName)
       || JsText.strictEquals (JsString.trim m_clientName) []
    then hostname else m_clientName in
  (* if (merged.reportInterval < merged.minReportInterval) *)
  let v_reportInterval :=
    if (m_reportInterval <? m_minReportInterval)%Z
    then m_minReportInterval else m_reportInterval in
  (* if (!Array.isArray(merged.clientTags)) *)
  let v_clientTags :=
    match p_clientTags config with
    | TagsArray tags => tags
    | TagsAbsent => clientTags defaults
    | TagsOther => []
    end in
  mkConfig v_clientName v_clientTags m_clientPurpose m_serverUrl
    v_reportInterval m_minReportInterval m_maxRetries m_cacheSize.

(** What [loadConfig] finds at [configPath]: no file, a file that
    cannot be read or parsed, or a parsed object. *)
Inductive ConfigFile : Type :=
| NoFile
| Unusable
| Parsed (config : PartialConfig).

(** [loadConfig()] *)
Definition loadConfig (hostname : JsString.t) (file : ConfigFile) : ClientConfig :=
  match file with
  | NoFile => getDefaultConfig hostname
  | Unusable => getDefaultConfig hostname
  | Parsed config => validateConfig hostname config
  end.

(** A configuration written back as a file that has every key. *)
Definition asFile (c : ClientConfig) : PartialConfig :=
  mkPartial (Some (clientName c)) (TagsArray (clientTags c)) (Some (clientPurpose c))
    (Some (serverUrl c)) (Some (reportInterval c)) (Some (minReportInterval c))
    (Some (maxRetries c)) (Some (cacheSize c)).

End ConfigManager.

(* ------------------------------------------------------------------ *)
(** ** [Reporter.buildPayload] and [src/reporter/types.ts] *)

Module Payload.
Section WithInfo.

Context {StaticSystemInfo : Type}.
Context {DynamicSystemStatus : Type}.

(** [this.config.clientName], [this.config.clientTags] and
    [this.config.clientPurpose]. *)
Definition configuredName (c : ClientConfig) : JsString.t := clientName c.
Definition configuredTags (c : ClientConfig) : list JsString.t := clientTags c.
Definition configuredPurpose (c : ClientConfig) : JsString.t := clientPurpose c.

(** [interface ReportPayload] *)
Record ReportPayload : Type := mkPayload {
  clientId : JsString.t;
  clientName : JsString.t;
  clientTags : list JsString.t;
  clientPurpose : JsString.t;
  hostname : JsString.t;
  platform : JsString.t;
  staticInfo : StaticSystemInfo;
  dynamicStatus : DynamicSystemStatus
}.

(** [platform === 'win32' ? 'windows' : platform === 'darwin' ? 'darwin' : 'linux'] *)
Definition platformName (os_platform : JsString.t) : JsString.t :=
  if JsText.strictEquals os_platform (JsText.lit "win32") then JsText.lit "windows"
  else if JsText.strictEquals os_platform (JsText.lit "darwin") then JsText.lit "darwin"
  else JsText.lit "linux".

(** [buildPayload(dynamicStatus)]; [os_platform] and [os_hostname] are
    what [os.platform()] and [os.hostname()] return. *)
Definition buildPayload (r : Reporter.t ReportPayload StaticSystemInfo)
    (os_platform os_hostname : JsString.t) (status : DynamicSystemStatus)
  : completion ReportPayload :=
  match Reporter.staticInfo r with
  | None => Throw
  | Some static =>
      Normal (mkPayload (Reporter.clientId r)
                (configuredName (Reporter.config r))
                (configuredTags (Reporter.config r))
                (configuredPurpose (Reporter.config r))
                os_hostname (platformName os_platform) static status)
  end.

End WithInfo.
Arguments ReportPayload : clear implicits.
End Payload.

(* ------------------------------------------------------------------ *)
(** ** [src/index.ts]: the cycle, [stop()], and calls in sequence *)

Module Lifecycle.
Section WithInfo.

Context {StaticSystemInfo : Type}.
Context {DynamicSystemStatus : Type}.

Local Abbreviation payload := (Payload.ReportPayload StaticSystemInfo DynamicSystemStatus).
Local Abbreviation client := (MonitorClient.t payload StaticSystemInfo).

Variable respond : list payload -> payload -> Reporter.Outcome.

(** What [os.platform()] and [os.hostname()] return. *)
Variable os_platform : JsString.t.
Variable os_hostname : JsString.t.

(** [collectAndReport()]; [dynamic] is what
    [collector.collectDynamicStatus()] settles to and [now] what
    [Date.now()] returns should the payload have to be cached.  Every
    exception ends in the [catch], which only logs. *)
Definition collectAndReport (c : client) (w : Reporter.World payload)
    (dynamic : completion DynamicSystemStatus) (now : Z)
  : client * Reporter.World payload :=
  match dynamic with
  | Throw => (c, w)
  | Normal dynamicStatus =>
      match Payload.buildPayload (MonitorClient.reporter c) os_platform os_hostname
              dynamicStatus with
      | Throw => (c, w)
      | Normal p =>
          let '(_, r', w') := Reporter.report respond (MonitorClient.reporter c) w p now in
          (MonitorClient.mkClient (MonitorClient.config c) r'
             (MonitorClient.intervalId c) (MonitorClient.isRunning c), w')
      end
  end.

(** The world together with the handles [clearInterval] was called on.
    The handle of a timer is its position in [Reporter.timers]. *)
Record Runtime : Type := mkRuntime {
  world : Reporter.World payload;
  cleared : list nat
}.

(** The handles of the intervals that are armed and not cleared. *)
Definition liveTimers (rt : Runtime) : list nat :=
  filter (fun id => negb (existsb (Nat.eqb id) (cleared rt)))
    (seq 0 (length (Reporter.timers (world rt)))).

(** [start()] in a runtime. *)
Definition start (c : client) (rt : Runtime) (static : completion StaticSystemInfo)
  : completion unit * client * Runtime :=
  let '(result, c', w') := MonitorClient.start respond c (world rt) static in
  (result, c', mkRuntime w' (cleared rt)).

(** [stop()].  A [Timeout] handle is an object, hence truthy. *)
Definition stop (c : client) (rt : Runtime) : client * Runtime :=
  if negb (MonitorClient.isRunning c) then (c, rt)
  else
    let rt' :=
      match MonitorClient.intervalId c with
      | Some id => mkRuntime (world rt) (id :: cleared rt)
      | None => rt
      end in
    (MonitorClient.mkClient (MonitorClient.config c) (MonitorClient.reporter c) None false,
     rt').

(** A call made on the client from outside. *)
Inductive Call : Type :=
| CallStart (static : completion StaticSystemInfo)
| CallStop.

(** Calls made one after the other, each after the previous one has
    settled. *)
Fixpoint run (calls : list Call) (c : client) (rt : Runtime) : client * Runtime :=
  match calls with
  | [] => (c, rt)
  | CallStart static :: rest =>
      let '(_, c', rt') := start c rt static in run rest c' rt'
  | CallStop :: rest =>
      let '(c', rt') := stop c rt in run rest c' rt'
  end.

(** The client and the runtime agree: a stopped client holds no handle
    and no interval is live; a running client holds the handle of the
    one live interval.  Handles that were cleared are handles that
    were given out. *)
Definition consistent (c : client) (rt : Runtime) : Prop :=
  (forall id, In id (cleared rt) -> (id < length (Reporter.timers (world rt)))%nat) /\
  ((MonitorClient.isRunning c = false /\ MonitorClient.intervalId c = None /\
    liveTimers rt = []) \/
   (MonitorClient.isRunning c = true /\
    exists id, MonitorClient.intervalId c = Some id /\ liveTimers rt = [id])).

End WithInfo.
End Lifecycle.

(* ------------------------------------------------------------------ *)
(** ** [SystemCollector]: disks, usage percentages, location *)

Module StaticCollector.

(** [total > 0 ? (used / total) * 100 : 0] *)
Definition percentage (used total : Z) : Q :=
  if (total >? 0)%Z then inject_Z used / inject_Z total * inject_Z 100 else 0.

(** The fields of [si.Systeminformation.FsSizeData] the collector
    sums. *)
Record FsSizeData : Type := mkFsSize {
  fs_size : Z;
  fs_used : Z
}.

(** [fsSize.reduce((sum, disk) => sum + disk.size, 0)] *)
Definition totalDiskSize (fsSize : list FsSizeData) : Z :=
  fold_left (fun sum disk => (sum + fs_size disk)%Z) fsSize 0%Z.

(** [fsSize.reduce((sum, disk) => sum + disk.used, 0)] *)
Definition usedDiskSize (fsSize : list FsSizeData) : Z :=
  fold_left (fun sum disk => (sum + fs_used disk)%Z) fsSize 0%Z.

(** [diskUsage] of [collectDynamicStatus]. *)
Definition diskUsage (fsSize : list FsSizeData) : Q :=
  percentage (usedDiskSize fsSize) (totalDiskSize fsSize).

(** [getLocationFromTimezone()]; [timeZone] is what
    [Intl.DateTimeFormat().resolvedOptions().timeZone] evaluates to. *)
Definition getLocationFromTimezone (timeZone : completion JsString.t) : JsString.t :=
  match timeZone with
  | Throw => JsText.lit "Unknown"
  | Normal timezone =>
      if JsText.includes timezone (JsText.lit "/")
      then JsText.replaceUnderscores (last (JsText.split 47 timezone) [])
      else timezone
  end.

Section WithLowerCase.

(** [String.prototype.toLowerCase]. *)
Variable toLowerCase : JsString.t -> JsString.t.

(** The fields of [si.Systeminformation.DiskLayoutData] the collector
    reads; [type] and [interfaceType] may be missing. *)
Record DiskLayoutData : Type := mkLayout {
  device : JsString.t;
  size : Z;
  type : option JsString.t;
  interfaceType : option JsString.t
}.

(** [interface DiskInfo] *)
Record DiskInfo : Type := mkDisk {
  disk_device : JsString.t;
  disk_size : Z;
  disk_type : JsString.t;
  disk_interfaceType : option JsString.t
}.

(** [field?.toLowerCase().includes(needle)] as a condition. *)
Definition lowerIncludes (field : option JsString.t) (needle : JsString.t) : bool :=
  match field with
  | Some s => JsText.includes (toLowerCase s) needle
  | None => false
  end.

(** The [diskType] chosen for one disk in the loop of
    [collectStaticInfo]. *)
Definition diskTypeOf (disk : DiskLayoutData) : JsString.t :=
  if lowerIncludes (interfaceType disk) (JsText.lit "nvme") then JsText.lit "NVMe"
  else if lowerIncludes (type disk) (JsText.lit "ssd") then JsText.lit "SSD"
  else match type disk with
       | Some t => if JsString.truthy t then t else JsText.lit "HDD"
       | None => JsText.lit "HDD"
       end.

(** The [for (const disk of diskLayout)] loop of [collectStaticInfo];
    [processedDevices] is the set of devices seen and [disks] the
    array being built. *)
Fixpoint disks_loop (diskLayout : list DiskLayoutData)
    (processedDevices : list JsString.t) (disks : list DiskInfo) : list DiskInfo :=
  match diskLayout with
  | [] => disks
  | disk :: rest =>
      if existsb (JsText.strictEquals (device disk)) processedDevices
      then disks_loop rest processedDevices disks
      else disks_loop rest (processedDevices ++ [device disk])
             (JsArray.push disks
                (mkDisk (device disk) (size disk) (diskTypeOf disk) (interfaceType disk)))
  end.

(** The [disks] array of the static information. *)
Definition collectDisks (diskLayout : list DiskLayoutData) : list DiskInfo :=
  disks_loop diskLayout [] [].

End WithLowerCase.

End StaticCollector.

(* ------------------------------------------------------------------ *)
(** ** Notions used to state properties *)

(** The elements of [l] that [mask] selects, in their order. *)
Fixpoint pick (A : Type) (mask : list bool) (l : list A) : list A :=
  match mask, l with
  | b :: mask', x :: l' => if b then x :: pick mask' l' else pick mask' l'
  | _, _ => []
  end.

Section DiskStates.

Context {ReportPayload : Type}.

(** The cache directory is there or can be made. *)
Definition dirUsable (f : Reporter.Fs ReportPayload) : bool :=
  Reporter.dir_exists f || negb (Reporter.mkdir_fails f).

(** Writing [failed-reports.json] goes through. *)
Definition cacheWritable (f : Reporter.Fs ReportPayload) : bool :=
  dirUsable f && negb (Reporter.cache_write_fails f).

(** The cache that a reporter constructed on this disk starts with. *)
Definition storedCache (f : Reporter.Fs ReportPayload)
  : list (Reporter.CachedReport ReportPayload) :=
  match Reporter.cache_file f with
  | Some (Reporter.Entries l) => if Reporter.cache_read_fails f then [] else l
  | Some Reporter.Unparsable => []
  | None => []
  end.

End DiskStates.

(** A reporter constructed on the disk of [w], with any configuration,
    starts with the cache [l]. *)
Definition restartsWith (ReportPayload StaticSystemInfo : Type)
    (uuidv4 : nat -> JsString.t) (w : Reporter.World ReportPayload)
    (l : list (Reporter.CachedReport ReportPayload)) : Prop :=
  forall cfg : ClientConfig,
  exists r : Reporter.t ReportPayload StaticSystemInfo,
    fst (Reporter.new uuidv4 cfg w) = Normal r /\ Reporter.cache r = l.

(** The interfaces of a reading that returned statistics. *)
Definition responding (ifaces : list DeltaCollector.IfaceStats) : list NetworkStatsData :=
  flat_map (fun i => match i with
                     | DeltaCollector.Stat stat => [stat]
                     | DeltaCollector.NoStat => []
                     | DeltaCollector.StatsThrew => []
                     end) ifaces.

(* ------------------------------------------------------------------ *)
(** ** More concrete data *)

Module Fixture.

(** A generator that hands out the same well-formed token every time. *)
Definition token (_ : nat) : JsString.t := JsText.lit "0f8fad5b-d9cb-469f".

(** Two cached entries, the older one retried once already. *)
Definition backlog : list (Reporter.CachedReport nat) :=
  [Reporter.mkCached 7%nat 1000 1; Reporter.mkCached 8%nat 2000 0].

(** Payloads with nothing in their static and dynamic parts. *)
Definition payload : Type := Payload.ReportPayload unit unit.

Definition refusing (_ : list payload) (_ : payload) : Reporter.Outcome :=
  Reporter.Response 503.

Definition emptyWorld : Reporter.World payload :=
  Reporter.mkWorld
    (Reporter.mkFs true false None false false None false false 0) [] 0 [] 0.

(** A reporter that has its static information, and one that has not. *)
Definition ready : Reporter.t payload unit :=
  Reporter.mkReporter (JsText.lit "id-1") (Sample.cfg 3 100) [] (Some tt).

Definition unready : Reporter.t payload unit :=
  Reporter.mkReporter (JsText.lit "id-1") (Sample.cfg 3 100) [] None.

Definition idle : MonitorClient.t payload unit :=
  MonitorClient.mkClient (Sample.cfg 3 100) unready None false.

Definition looping : MonitorClient.t payload unit :=
  MonitorClient.mkClient (Sample.cfg 3 100) ready (Some 0%nat) true.

Definition runtime0 : @Lifecycle.Runtime unit unit :=
  Lifecycle.mkRuntime emptyWorld [].

(** Starts and stops, with one failing static collection. *)
Definition calls : list (@Lifecycle.Call unit) :=
  [Lifecycle.CallStart (Normal tt); Lifecycle.CallStart (Normal tt);
   Lifecycle.CallStop; Lifecycle.CallStop;
   Lifecycle.CallStart Throw; Lifecycle.CallStart (Normal tt)].

(** Two file systems, one of them empty. *)
Definition volumes : list StaticCollector.FsSizeData :=
  [StaticCollector.mkFsSize 1000 250; StaticCollector.mkFsSize 0 0].

(** Readings of one interface, at two instants. *)
Definition earlier : list NetworkStatsData := [mkStats (Some 1000%Z) (Some 400%Z)].
Definition later : list NetworkStatsData := [mkStats (Some 4000%Z) (Some 900%Z)].

End Fixture.

(* ------------------------------------------------------------------ *)
(** ** Properties of the report cache *)

Section CacheProperties.

Context {ReportPayload : Type}.
Context {StaticSystemInfo : Type}.

Local Abbreviation reporter := (Reporter.t ReportPayload StaticSystemInfo).
Local Abbreviation world := (Reporter.World ReportPayload).
Local Abbreviation entry := (Reporter.CachedReport ReportPayload).

Implicit Types (r : reporter) (w : world) (p : ReportPayload) (e : entry).

Lemma slice_neg_length (A : Type) (l : list A) (c : Z) :
  (0 < c)%Z -> (c <= Z.of_nat (length l))%Z ->
  Z.of_nat (length (JsArray.slice l (- c))) = c.
Proof.
  intros Hc Hl. unfold JsArray.slice.
  replace (- c <? 0)%Z with true by (symmetry; apply Z.ltb_lt; lia).
  rewrite length_skipn. lia.
Qed.

Lemma slice_neg_lastn (A : Type) (l : list A) (c : Z) :
  (0 < c)%Z -> JsArray.slice l (- c) = lastn (Z.to_nat c) l.
Proof.
  intros Hc. unfold JsArray.slice, lastn.
  replace (- c <? 0)%Z with true by (symmetry; apply Z.ltb_lt; lia).
  f_equal. lia.
Qed.

Lemma slice_zero (A : Type) (l : list A) : JsArray.slice l (- 0) = l.
Proof.
  unfold JsArray.slice. cbn [Z.opp Z.ltb Z.compare].
  replace (Z.min 0 (Z.of_nat (length l))) with 0%Z by lia. reflexivity.
Qed.

(** The cache after [cacheFailedReport], whatever the disk does. *)
Lemma cacheFailedReport_cache r w p now :
  Reporter.cache (fst (Reporter.cacheFailedReport r w p now)) =
  let pushed := Reporter.cache r ++ [Reporter.mkCached p now 0] in
  if (Z.of_nat (length pushed) >? cacheSize (Reporter.config r))%Z
  then JsArray.slice pushed (- cacheSize (Reporter.config r))
  else pushed.
Proof.
  unfold Reporter.cacheFailedReport, JsArray.push. cbn zeta.
  destruct (_ >? _)%Z; reflexivity.
Qed.

Lemma cacheFailedReport_config r w p now :
  Reporter.config (fst (Reporter.cacheFailedReport r w p now)) = Reporter.config r.
Proof.
  unfold Reporter.cacheFailedReport. cbn zeta.
  destruct (_ >? _)%Z; reflexivity.
Qed.

(** With a positive capacity the limit is enforced by every call, also
    on a cache that was loaded over-full from disk. *)
Lemma cacheFailedReport_bounded r w p now :
  (0 < cacheSize (Reporter.config r))%Z ->
  (Reporter.getCacheSize (fst (Reporter.cacheFailedReport r w p now))
   <= cacheSize (Reporter.config r))%Z.
Proof.
  intros Hc. unfold Reporter.getCacheSize.
  rewrite cacheFailedReport_cache. cbn zeta.
  destruct (_ >? _)%Z eqn:E.
  - rewrite slice_neg_length; lia.
  - lia.
Qed.

(** With a positive capacity a call keeps the most recent entries. *)
Lemma cacheFailedReport_most_recent r w p now :
  (0 < cacheSize (Reporter.config r))%Z ->
  Reporter.cache (fst (Reporter.cacheFailedReport r w p now)) =
  lastn (Z.to_nat (cacheSize (Reporter.config r)))
    (Reporter.cache r ++ [Reporter.mkCached p now 0]).
Proof.
  intros Hc. rewrite cacheFailedReport_cache. cbn zeta.
  destruct (_ >? _)%Z eqn:E.
  - apply slice_neg_lastn; assumption.
  - unfold lastn.
    replace (_ - _)%nat with 0%nat by lia. reflexivity.
Qed.

Lemma lastn_app_lastn (A : Type) (n : nat) (l1 l2 : list A) :
  (0 < n)%nat -> lastn n (lastn n l1 ++ l2) = lastn n (l1 ++ l2).
Proof.
  intros Hn. unfold lastn.
  rewrite !length_app, length_skipn.
  rewrite !skipn_app, !length_skipn, skipn_skipn.
  f_equal; f_equal; lia.
Qed.

Lemma cacheAll_config calls r w :
  Reporter.config (fst (cacheAll r w calls)) = Reporter.config r.
Proof.
  revert r w. induction calls as [|[p now] rest IH]; intros r w; cbn [cacheAll].
  - reflexivity.
  - destruct (Reporter.cacheFailedReport r w p now) as [r' w'] eqn:E.
    rewrite IH. change r' with (fst (r', w')). rewrite <- E.
    apply cacheFailedReport_config.
Qed.

(** With a positive capacity [C], after any non-empty sequence of
    calls the cache has at most [C] entries and they are the [C] most
    recently cached ones (entries present before the calls counting
    as the oldest). *)
Lemma cacheAll_most_recent calls r w :
  (0 < cacheSize (Reporter.config r))%Z ->
  calls <> [] ->
  let r' := fst (cacheAll r w calls) in
  (Reporter.getCacheSize r' <= cacheSize (Reporter.config r))%Z /\
  Reporter.cache r' =
    lastn (Z.to_nat (cacheSize (Reporter.config r)))
      (Reporter.cache r ++ map (fun c => Reporter.mkCached (fst c) (snd c) 0) calls).
Proof.
  intros Hc Hne. cbn zeta.
  assert (Hcache : forall calls r w,
    (0 < cacheSize (Reporter.config r))%Z -> calls <> [] ->
    Reporter.cache (fst (cacheAll r w calls)) =
    lastn (Z.to_nat (cacheSize (Reporter.config r)))
      (Reporter.cache r ++ map (fun c => Reporter.mkCached (fst c) (snd c) 0) calls)).
  { clear. induction calls as [|[p now] rest IH]; intros r w Hc Hne.
    - congruence.
    - cbn [cacheAll map fst snd].
      destruct (Reporter.cacheFailedReport r w p now) as [r1 w1] eqn:E.
      assert (E1 : r1 = fst (Reporter.cacheFailedReport r w p now)) by (rewrite E; reflexivity).
      assert (Hcfg : Reporter.config r1 = Reporter.config r)
        by (rewrite E1; apply cacheFailedReport_config).
      assert (H1 : Reporter.cache r1 =
                   lastn (Z.to_nat (cacheSize (Reporter.config r)))
                     (Reporter.cache r ++ [Reporter.mkCached p now 0]))
        by (rewrite E1; apply cacheFailedReport_most_recent; assumption).
      destruct rest as [|c rest'].
      + cbn [cacheAll fst map]. rewrite H1. reflexivity.
      + rewrite IH by (rewrite ?Hcfg; congruence).
        rewrite Hcfg, H1, lastn_app_lastn by lia.
        rewrite <- app_assoc. reflexivity. }
  split.
  - unfold Reporter.getCacheSize. rewrite Hcache by assumption.
    unfold lastn. rewrite length_skipn. lia.
  - apply Hcache; assumption.
Qed.

End CacheProperties.

(* ------------------------------------------------------------------ *)
(** ** Properties of delivery and of the retry pass *)

Section DeliveryProperties.

Context {ReportPayload : Type}.
Context {StaticSystemInfo : Type}.
Variable respond : list ReportPayload -> ReportPayload -> Reporter.Outcome.

Local Abbreviation reporter := (Reporter.t ReportPayload StaticSystemInfo).
Local Abbreviation world := (Reporter.World ReportPayload).
Local Abbreviation entry := (Reporter.CachedReport ReportPayload).

Implicit Types (r : reporter) (w : world) (p : ReportPayload) (e : entry).

Lemma delivered_true_iff (o : Reporter.Outcome) :
  Reporter.delivered o = true <->
  exists status, o = Reporter.Response status /\ (200 <= status < 300)%Z.
Proof.
  destruct o as [s|]; cbn; unfold Reporter.is_2xx.
  - rewrite andb_true_iff, Z.geb_le, Z.ltb_lt. split.
    + intros H. exists s. split; [reflexivity | lia].
    + intros (s' & E & H). inversion E. lia.
  - split; [discriminate | intros (s' & E & _); discriminate].
Qed.

Lemma delivered_false_iff (o : Reporter.Outcome) :
  Reporter.delivered o = false <->
  o = Reporter.Rejected \/
  exists status, o = Reporter.Response status /\ ~ (200 <= status < 300)%Z.
Proof.
  destruct o as [s|]; cbn; unfold Reporter.is_2xx.
  - rewrite andb_false_iff, Z.geb_leb, Z.leb_gt, Z.ltb_ge. split.
    + intros H. right. exists s. split; [reflexivity | lia].
    + intros [E | (s' & E & H)]; [discriminate | inversion E; lia].
  - split; [intros _; left; reflexivity | reflexivity].
Qed.

Lemma saveCacheToDisk_posts r w :
  Reporter.posts (Reporter.saveCacheToDisk r w) = Reporter.posts w.
Proof.
  unfold Reporter.saveCacheToDisk.
  destruct (negb _); [destruct (Reporter.mkdirSync _)|]; reflexivity.
Qed.

(** The loop posts the payloads of the entries, in cache order. *)
Lemma retry_loop_posts cfg (todo acc : list entry) w :
  Reporter.posts (snd (Reporter.retry_loop respond cfg todo acc w)) =
  Reporter.posts w ++ map (@Reporter.payload _) todo.
Proof.
  revert acc w. induction todo as [|c rest IH]; intros acc w; cbn [Reporter.retry_loop map].
  - rewrite app_nil_r. reflexivity.
  - unfold Reporter.axios_post.
    destruct (Reporter.delivered _); [|destruct (_ <? _)%Z];
      rewrite IH; cbn [Reporter.posts]; rewrite <- app_assoc; reflexivity.
Qed.

(** [failedReports] is only ever appended to. *)
Lemma retry_loop_acc cfg (todo acc : list entry) w :
  fst (Reporter.retry_loop respond cfg todo acc w) =
  acc ++ fst (Reporter.retry_loop respond cfg todo [] w).
Proof.
  revert acc w. induction todo as [|c rest IH]; intros acc w; cbn [Reporter.retry_loop].
  - cbn. rewrite app_nil_r. reflexivity.
  - unfold Reporter.axios_post.
    destruct (Reporter.delivered _); [apply IH|].
    destruct (_ <? _)%Z; [|apply IH].
    unfold JsArray.push. rewrite IH, (IH ([] ++ _)), <- app_assoc. reflexivity.
Qed.

(** What the loop leaves in [failedReports]: the entries whose
    attempt failed and whose incremented counter is still below
    [maxRetries], each with its counter incremented. *)
Lemma retry_loop_In cfg (todo : list entry) w (x : entry) :
  In x (fst (Reporter.retry_loop respond cfg todo [] w)) <->
  exists i e,
    nth_error todo i = Some e /\
    Reporter.delivered (attempt respond w todo i e) = false /\
    (Reporter.retryCount e + 1 < maxRetries cfg)%Z /\
    x = Reporter.bump e.
Proof.
  unfold attempt. revert w.
  induction todo as [|c rest IH]; intros w; cbn [Reporter.retry_loop].
  - cbn. split; [tauto | intros (i & e & H & _); destruct i; discriminate].
  - unfold Reporter.axios_post.
    destruct (Reporter.delivered (respond (Reporter.posts w) (Reporter.payload c))) eqn:D.
    + rewrite IH. cbn [Reporter.posts]. split.
      * intros (i & e & Hn & Hd & Hc & Hx). exists (S i), e.
        cbn [nth_error firstn map]. rewrite <- app_assoc in Hd. auto.
      * intros (i & e & Hn & Hd & Hc & Hx). destruct i as [|i].
        -- cbn in Hn, Hd. inversion Hn; subst e. rewrite app_nil_r in Hd. congruence.
        -- exists i, e. cbn [nth_error firstn map] in Hn, Hd.
           rewrite <- app_assoc. auto.
    + destruct (Reporter.retryCount (Reporter.bump c) <? maxRetries cfg)%Z eqn:C.
      * rewrite retry_loop_acc, in_app_iff, IH. cbn [Reporter.posts].
        unfold JsArray.push. cbn [app In]. split.
        -- intros [[Hx | []] | (i & e & Hn & Hd & Hc & Hx)].
           ++ exists 0%nat, c. cbn [nth_error firstn map]. rewrite app_nil_r.
              apply Z.ltb_lt in C. cbn in C. auto.
           ++ exists (S i), e. cbn [nth_error firstn map].
              rewrite <- app_assoc in Hd. auto.
        -- intros (i & e & Hn & Hd & Hc & Hx). destruct i as [|i].
           ++ cbn in Hn. inversion Hn; subst e. auto.
           ++ right. exists i, e. cbn [nth_error firstn map] in Hn, Hd.
              rewrite <- app_assoc. auto.
      * rewrite IH. cbn [Reporter.posts]. split.
        -- intros (i & e & Hn & Hd & Hc & Hx). exists (S i), e.
           cbn [nth_error firstn map]. rewrite <- app_assoc in Hd. auto.
        -- intros (i & e & Hn & Hd & Hc & Hx). destruct i as [|i].
           ++ cbn in Hn. inversion Hn; subst e.
              apply Z.ltb_ge in C. cbn in C. lia.
           ++ exists i, e. cbn [nth_error firstn map] in Hn, Hd.
              rewrite <- app_assoc. auto.
Qed.

Lemma retry_loop_length cfg (todo : list entry) w :
  (length (fst (Reporter.retry_loop respond cfg todo [] w)) <= length todo)%nat.
Proof.
  revert w. induction todo as [|c rest IH]; intros w; cbn [Reporter.retry_loop].
  - cbn. lia.
  - unfold Reporter.axios_post.
    destruct (Reporter.delivered _).
    + etransitivity; [apply IH | cbn; lia].
    + destruct (_ <? _)%Z.
      * rewrite retry_loop_acc, length_app. unfold JsArray.push. cbn [app length].
        specialize (IH (Reporter.mkWorld (Reporter.fs w)
          (Reporter.posts w ++ [Reporter.payload c]) (Reporter.uuid_calls w)
          (Reporter.timers w) (Reporter.cycles w))). lia.
      * etransitivity; [apply IH | cbn; lia].
Qed.

(** The cache and the posts after a retry pass, whatever the disk
    does. *)
Lemma retryCachedReports_cache r w :
  Reporter.cache (fst (Reporter.retryCachedReports respond r w)) =
  fst (Reporter.retry_loop respond (Reporter.config r) (Reporter.cache r) [] w).
Proof.
  unfold Reporter.retryCachedReports.
  destruct (Reporter.cache r) as [|c rest] eqn:E.
  - cbn. assumption.
  - replace (Z.of_nat (length (c :: rest)) =? 0)%Z with false
      by (symmetry; apply Z.eqb_neq; cbn [length]; lia).
    destruct (Reporter.retry_loop _ _ _ _ _) as [failed w1]. reflexivity.
Qed.

Lemma retryCachedReports_posts r w :
  Reporter.posts (snd (Reporter.retryCachedReports respond r w)) =
  Reporter.posts w ++ map (@Reporter.payload _) (Reporter.cache r).
Proof.
  unfold Reporter.retryCachedReports.
  destruct (Reporter.cache r) as [|c rest] eqn:E.
  - cbn. rewrite app_nil_r. reflexivity.
  - replace (Z.of_nat (length (c :: rest)) =? 0)%Z with false
      by (symmetry; apply Z.eqb_neq; cbn [length]; lia).
    destruct (Reporter.retry_loop _ _ _ _ _) as [failed w1] eqn:L.
    cbn [snd]. rewrite saveCacheToDisk_posts.
    change w1 with (snd (failed, w1)). rewrite <- L. apply retry_loop_posts.
Qed.

Lemma retryCachedReports_config r w :
  Reporter.config (fst (Reporter.retryCachedReports respond r w)) = Reporter.config r.
Proof.
  unfold Reporter.retryCachedReports.
  destruct (_ =? _)%Z; [reflexivity|].
  destruct (Reporter.retry_loop _ _ _ _ _). reflexivity.
Qed.

End DeliveryProperties.

(* ------------------------------------------------------------------ *)
(** ** The retry budget *)

Section RetryBudget.

Context {ReportPayload : Type}.
Context {StaticSystemInfo : Type}.
Variable respond : list ReportPayload -> ReportPayload -> Reporter.Outcome.

Local Abbreviation reporter := (Reporter.t ReportPayload StaticSystemInfo).
Local Abbreviation world := (Reporter.World ReportPayload).
Local Abbreviation entry := (Reporter.CachedReport ReportPayload).

Implicit Types (r : reporter) (w : world) (p : ReportPayload) (e : entry).

Lemma bump_injective e1 e2 : Reporter.bump e1 = Reporter.bump e2 -> e1 = e2.
Proof.
  destruct e1, e2. unfold Reporter.bump. cbn. intros H. inversion H.
  f_equal. lia.
Qed.

(** A pass over an empty cache does nothing. *)
Lemma retryCachedReports_empty r w :
  Reporter.cache r = [] -> Reporter.retryCachedReports respond r w = (r, w).
Proof. intros E. unfold Reporter.retryCachedReports. rewrite E. reflexivity. Qed.

(** A pass over a single entry whose delivery fails. *)
Lemma retryCachedReports_single_failure r w e :
  Reporter.cache r = [e] ->
  Reporter.delivered (respond (Reporter.posts w) (Reporter.payload e)) = false ->
  let r' := fst (Reporter.retryCachedReports respond r w) in
  let w' := snd (Reporter.retryCachedReports respond r w) in
  Reporter.config r' = Reporter.config r /\
  Reporter.posts w' = Reporter.posts w ++ [Reporter.payload e] /\
  Reporter.cache r' =
    if (Reporter.retryCount e + 1 <? maxRetries (Reporter.config r))%Z
    then [Reporter.bump e] else [].
Proof.
  intros E D. cbn zeta.
  rewrite retryCachedReports_config, retryCachedReports_posts, retryCachedReports_cache, E.
  repeat split.
  cbn [Reporter.retry_loop]. unfold Reporter.axios_post. rewrite D.
  cbn [Reporter.bump Reporter.retryCount].
  destruct (_ <? _)%Z; reflexivity.
Qed.

Lemma retryRounds_empty n r w :
  Reporter.cache r = [] -> retryRounds respond n r w = (r, w).
Proof.
  intros E. induction n as [|n IH]; cbn [retryRounds]; [reflexivity|].
  rewrite retryCachedReports_empty by assumption. exact IH.
Qed.

Lemma retryRounds_S n r w :
  retryRounds respond (S n) r w =
  retryRounds respond n (fst (Reporter.retryCachedReports respond r w))
    (snd (Reporter.retryCachedReports respond r w)).
Proof.
  cbn [retryRounds]. destruct (Reporter.retryCachedReports respond r w). reflexivity.
Qed.

End RetryBudget.

(* ------------------------------------------------------------------ *)
(** ** Statements about the reporter *)

Section ReporterClaims.

Context {ReportPayload : Type}.
Context {StaticSystemInfo : Type}.
Variable respond : list ReportPayload -> ReportPayload -> Reporter.Outcome.

Local Abbreviation reporter := (Reporter.t ReportPayload StaticSystemInfo).
Local Abbreviation world := (Reporter.World ReportPayload).
Local Abbreviation entry := (Reporter.CachedReport ReportPayload).

Implicit Types (r : reporter) (w : world) (p : ReportPayload) (e : entry).

(** C2.  In a retry pass, an entry whose delivery attempt fails stays
    in the cache, with its retry counter incremented, exactly when
    the incremented counter is still below [maxRetries]; it is
    removed when the counter reaches it.  With [maxRetries = 3], a
    freshly cached entry whose delivery keeps failing is present
    (counter 1, then 2) after the first and the second pass, is gone
    after the third, and is posted three times however many passes
    follow. *)
Theorem retry_failure_increments_and_drops_at_maxRetries r w i e :
  nth_error (Reporter.cache r) i = Some e ->
  Reporter.delivered (attempt respond w (Reporter.cache r) i e) = false ->
  (In (Reporter.bump e) (Reporter.cache (fst (Reporter.retryCachedReports respond r w)))
   <-> (Reporter.retryCount e + 1 < maxRetries (Reporter.config r))%Z) /\
  (maxRetries (Reporter.config r) = 3%Z ->
   Reporter.cache r = [e] ->
   Reporter.retryCount e = 0%Z ->
   (forall posted body, Reporter.delivered (respond posted body) = false) ->
   Reporter.cache (fst (retryRounds respond 1 r w)) =
     [Reporter.mkCached (Reporter.payload e) (Reporter.timestamp e) 1] /\
   Reporter.cache (fst (retryRounds respond 2 r w)) =
     [Reporter.mkCached (Reporter.payload e) (Reporter.timestamp e) 2] /\
   Reporter.cache (fst (retryRounds respond 3 r w)) = [] /\
   forall n, (3 <= n)%nat ->
     Reporter.cache (fst (retryRounds respond n r w)) = [] /\
     Reporter.posts (snd (retryRounds respond n r w)) =
       Reporter.posts w ++ [Reporter.payload e; Reporter.payload e; Reporter.payload e]).
Proof.
  intros Hn Hd. split.
  - rewrite retryCachedReports_cache, retry_loop_In. split.
    + intros (i' & e' & _ & _ & Hc & Hx).
      apply bump_injective in Hx. subst e'. exact Hc.
    + intros Hc. exists i, e. auto.
  - intros Hmax Hcache Hcount Hfail.
    destruct e as [p ts c]. cbn in Hcount. subst c. cbn [Reporter.payload Reporter.timestamp].
(* first pass *)
destruct (retryCachedReports_single_failure respond r w Hcache (Hfail _ _))
  as (Hcfg1 & Hposts1 & Hcache1).
rewrite Hmax in Hcache1. cbn in Hcache1.
set (r1 := fst (Reporter.retryCachedReports respond r w)) in *.
set (w1 := snd (Reporter.retryCachedReports respond r w)) in *.
(* second pass *)
destruct (retryCachedReports_single_failure respond r1 w1 Hcache1 (Hfail _ _))
  as (Hcfg2 & Hposts2 & Hcache2).
rewrite Hcfg1, Hmax in Hcache2. cbn in Hcache2.
set (r2 := fst (Reporter.retryCachedReports respond r1 w1)) in *.
set (w2 := snd (Reporter.retryCachedReports respond r1 w1)) in *.
(* third pass *)
destruct (retryCachedReports_single_failure respond r2 w2 Hcache2 (Hfail _ _))
  as (Hcfg3 & Hposts3 & Hcache3).
rewrite Hcfg2, Hcfg1, Hmax in Hcache3. cbn in Hcache3.
set (r3 := fst (Reporter.retryCachedReports respond r2 w2)) in *.
set (w3 := snd (Reporter.retryCachedReports respond r2 w2)) in *.
assert (H3 : forall n, retryRounds respond (3 + n) r w = (r3, w3)).
{ intros n. cbn [Nat.add]. rewrite !retryRounds_S.
  fold r1 w1. fold r2 w2. fold r3 w3. apply retryRounds_empty. exact Hcache3. }
assert (Hp3 : Reporter.posts w3 = Reporter.posts w ++ [p; p; p]).
{ rewrite Hposts3, Hposts2, Hposts1. cbn [Reporter.payload].
  rewrite <- !app_assoc. reflexivity. }
repeat split.
+ rewrite retryRounds_S. exact Hcache1.
+ rewrite !retryRounds_S. exact Hcache2.
+ pose proof (H3 0%nat) as H30. cbn [Nat.add] in H30. rewrite H30. exact Hcache3.
+ replace n with (3 + (n - 3))%nat by lia. rewrite H3. exact Hcache3.
+ replace n with (3 + (n - 3))%nat by lia. rewrite H3. exact Hp3.
Qed.

(** C5.  When every delivery succeeds, a retry pass over a cache of
    [N] entries leaves the cache empty and has posted exactly the [N]
    cached payloads, oldest first. *)
Theorem retry_all_delivered_empties_cache r w :
  (forall posted body, Reporter.delivered (respond posted body) = true) ->
  let r' := fst (Reporter.retryCachedReports respond r w) in
  let w' := snd (Reporter.retryCachedReports respond r w) in
  Reporter.cache r' = [] /\
  Reporter.posts w' = Reporter.posts w ++ map (@Reporter.payload _) (Reporter.cache r) /\
  length (Reporter.posts w') = (length (Reporter.posts w) + length (Reporter.cache r))%nat.
Proof.
  intros Hok. cbn zeta. rewrite retryCachedReports_posts. repeat split.
  - rewrite retryCachedReports_cache.
    destruct (fst (Reporter.retry_loop _ _ _ _ _)) as [|x l] eqn:E; [reflexivity|].
    assert (Hin : In x (fst (Reporter.retry_loop respond (Reporter.config r)
                               (Reporter.cache r) [] w)))
      by (rewrite E; left; reflexivity).
    apply retry_loop_In in Hin. destruct Hin as (i & e & _ & Hd & _).
    unfold attempt in Hd. rewrite Hok in Hd. discriminate.
  - rewrite length_app, length_map. reflexivity.
Qed.

(** C6.  A [report] that receives a 2xx status resolves and leaves
    the cache empty, whatever the cache held. *)
Theorem report_2xx_clears_cache r w p now status :
  respond (Reporter.posts w) p = Reporter.Response status ->
  (200 <= status < 300)%Z ->
  let '(result, r', _) := Reporter.report respond r w p now in
  result = Normal tt /\ Reporter.cache r' = [] /\ Reporter.getCacheSize r' = 0%Z.
Proof.
  intros Hresp Hs. unfold Reporter.report, Reporter.axios_post.
  rewrite Hresp. cbn [Reporter.delivered]. unfold Reporter.is_2xx.
  replace (status >=? 200)%Z with true by (symmetry; apply Z.geb_le; lia).
  replace (status <? 300)%Z with true by (symmetry; apply Z.ltb_lt; lia).
  cbn [andb]. unfold Reporter.clearCache, Reporter.getCacheSize.
  destruct (Reporter.cache r) as [|c l] eqn:E.
  - cbn. rewrite E. auto.
  - replace (Z.of_nat (length (c :: l)) >? 0)%Z with true
      by (symmetry; apply Z.gtb_lt; cbn [length]; lia).
    cbn. auto.
Qed.

(** C7.  A [report] whose delivery fails (no response, or a status
    outside 2xx) rejects after having appended the payload to the
    cache with [retryCount] 0; a retry pass adds no entry: what it
    leaves in the cache are entries that were there, with their
    counters incremented. *)
Theorem failed_report_is_cached_failed_retry_is_not r w p now :
  (0 <= cacheSize (Reporter.config r))%Z ->
  respond (Reporter.posts w) p = Reporter.Rejected \/
  (exists status, respond (Reporter.posts w) p = Reporter.Response status /\
                  ~ (200 <= status < 300)%Z) ->
  (let '(result, r', _) := Reporter.report respond r w p now in
   result = Throw /\
   exists older, Reporter.cache r' = older ++ [Reporter.mkCached p now 0]) /\
  (let r' := fst (Reporter.retryCachedReports respond r w) in
   (length (Reporter.cache r') <= length (Reporter.cache r))%nat /\
   forall x, In x (Reporter.cache r') ->
     exists e, In e (Reporter.cache r) /\ x = Reporter.bump e).
Proof.
  intros Hsize Hfail. apply delivered_false_iff in Hfail. split.
  - unfold Reporter.report, Reporter.axios_post. rewrite Hfail.
    destruct (Reporter.cacheFailedReport _ _ _ _) as [r' w'] eqn:E.
    split; [reflexivity|].
    assert (Hr : r' = fst (Reporter.cacheFailedReport r
      (Reporter.mkWorld (Reporter.fs w) (Reporter.posts w ++ [p])
         (Reporter.uuid_calls w) (Reporter.timers w) (Reporter.cycles w)) p now))
      by (rewrite E; reflexivity).
    rewrite Hr, cacheFailedReport_cache. cbn zeta.
    destruct (_ >? _)%Z eqn:G.
    + destruct (Z.eq_dec (cacheSize (Reporter.config r)) 0) as [Z0|NZ].
      * rewrite Z0, slice_zero. eexists; reflexivity.
      * rewrite slice_neg_lastn by lia. unfold lastn.
        rewrite length_app. cbn [length].
        rewrite skipn_app.
        replace (length (Reporter.cache r) + 1 - Z.to_nat (cacheSize (Reporter.config r))
                 - length (Reporter.cache r))%nat with 0%nat by lia.
        cbn [skipn]. eexists; reflexivity.
    + eexists; reflexivity.
  - cbn zeta. rewrite retryCachedReports_cache. split.
    + apply retry_loop_length.
    + intros x Hx. apply retry_loop_In in Hx.
      destruct Hx as (i & e & Hn & _ & _ & Hx).
      exists e. split; [eapply nth_error_In; eassumption | assumption].
Qed.

(** C10.  [clearCache] on an empty in-memory cache changes nothing:
    the reporter is as it was and so is the world, the cache file
    and the count of [writeFileSync] calls included. *)
Theorem clearCache_on_empty_cache_writes_nothing r w :
  Reporter.cache r = [] ->
  Reporter.clearCache r w = (r, w).
Proof.
  intros E. unfold Reporter.clearCache. rewrite E. reflexivity.
Qed.

End ReporterClaims.

(* ------------------------------------------------------------------ *)
(** ** Statement about the client identifier *)

Section IdentityClaims.

Context {ReportPayload : Type}.
Variable uuidv4 : nat -> JsString.t.

Local Abbreviation world := (Reporter.World ReportPayload).

(** C9.  Provided the uuid generator hands out non-empty tokens,
    [loadOrGenerateClientId] returns normally, with a non-empty
    identifier, for every state of the cache directory and every
    combination of failing [mkdirSync], [readFileSync] and
    [writeFileSync].  The identifier is the persisted one when that
    can be read; otherwise it is a token generated during the call,
    and when one of the file-system operations failed the identity
    file is left as it was: the token is returned without having
    been persisted. *)
Theorem loadOrGenerateClientId_never_fails (w : world) :
  (forall n, uuidv4 n <> []) ->
  exists id w',
    Reporter.loadOrGenerateClientId uuidv4 w = (Normal id, w') /\
    id <> [] /\
    match persistedId (Reporter.fs w) with
    | Some stored =>
        id = stored /\
        Reporter.uuid_calls w' = Reporter.uuid_calls w /\
        Reporter.id_file (Reporter.fs w') = Reporter.id_file (Reporter.fs w)
    | None =>
        (exists k, (Reporter.uuid_calls w <= k < Reporter.uuid_calls w')%nat /\
                   id = uuidv4 k) /\
        (mkdir_throws (Reporter.fs w) || read_throws (Reporter.fs w)
           || Reporter.id_write_fails (Reporter.fs w) = true ->
         Reporter.id_file (Reporter.fs w') = Reporter.id_file (Reporter.fs w)) /\
        (mkdir_throws (Reporter.fs w) || read_throws (Reporter.fs w)
           || Reporter.id_write_fails (Reporter.fs w) = false ->
         Reporter.id_file (Reporter.fs w') = Some id)
    end.
Proof.
  intros Huuid.
  destruct w as [f posted n tm cy].
  destruct f as [dir mkf idf rdf wrf cf crf cwf wc].
  unfold Reporter.loadOrGenerateClientId, Reporter.loadOrGenerateClientId_try,
    persistedId, mkdir_throws, read_throws, Reporter.mkdirSync,
    Reporter.writeIdFile, Reporter.call_uuidv4, Reporter.with_fs.
  cbn [Reporter.fs Reporter.dir_exists Reporter.mkdir_fails Reporter.id_file
       Reporter.id_read_fails Reporter.id_write_fails Reporter.uuid_calls
       Reporter.posts Reporter.timers Reporter.cycles Reporter.cache_file
       Reporter.cache_read_fails Reporter.cache_write_fails Reporter.write_calls].
  destruct dir, mkf, idf as [content|], rdf, wrf;
    cbn [negb andb orb Reporter.id_file Reporter.id_read_fails Reporter.fs
         Reporter.id_write_fails Reporter.dir_exists Reporter.uuid_calls];
    try (destruct (JsString.trim content) as [|c0 rest] eqn:T;
         cbn [JsString.truthy negb andb orb Reporter.id_file Reporter.fs
              Reporter.id_write_fails Reporter.dir_exists Reporter.uuid_calls]);
    do 2 eexists; (split; [reflexivity|]);
    cbn [Reporter.fs Reporter.id_file Reporter.uuid_calls];
    repeat split;
    try apply Huuid; try discriminate; try reflexivity;
    try (eexists; split; [|reflexivity]; lia);
    try (intros; discriminate); try (intros; reflexivity).
Qed.

End IdentityClaims.

(* ------------------------------------------------------------------ *)
(** ** Properties of the throughput derivation *)

Section ThroughputProperties.

Lemma seconds_between_nonpositive (timestamp last : Z) :
  (timestamp <= last)%Z -> Qle_bool (seconds_between timestamp last) 0 = true.
Proof.
  intros H. unfold seconds_between, Qle_bool, Qdiv, Qmult, Qinv, inject_Z.
  cbn. apply Z.leb_le. lia.
Qed.

Lemma seconds_between_positive (timestamp last : Z) :
  (last < timestamp)%Z -> Qle_bool (seconds_between timestamp last) 0 = false.
Proof.
  intros H. unfold seconds_between, Qle_bool, Qdiv, Qmult, Qinv, inject_Z.
  cbn. apply Z.leb_gt. lia.
Qed.

Lemma seconds_between_gt_0 (timestamp last : Z) :
  (last < timestamp)%Z -> 0 < seconds_between timestamp last.
Proof.
  intros H. unfold seconds_between, Qlt, Qdiv, Qmult, Qinv, inject_Z.
  cbn. lia.
Qed.

(** The inline revision on a timestamp that is not later than the
    stored one: both rates are 0 and the snapshot is replaced by the
    new totals and timestamp. *)
Lemma DeltaCollector_nonpositive_dt (last : DeltaCollector.NetSnapshot)
    (totalRx totalTx timestamp : Z) :
  (timestamp <= DeltaCollector.time last)%Z ->
  DeltaCollector.networkSpeed (DeltaCollector.mkCollector (Some last))
    totalRx totalTx timestamp =
  (mkSpeeds 0 0,
   DeltaCollector.mkCollector
     (Some (DeltaCollector.mkSnapshot totalRx totalTx timestamp))).
Proof.
  intros H. unfold DeltaCollector.networkSpeed, Qgtb.
  cbn [DeltaCollector.lastNetSnapshot].
  rewrite seconds_between_nonpositive by assumption. reflexivity.
Qed.

(** The inline revision on a later timestamp: the rates are the raw
    deltas over the elapsed seconds, whatever their sign. *)
Lemma DeltaCollector_positive_dt (last : DeltaCollector.NetSnapshot)
    (totalRx totalTx timestamp : Z) :
  (DeltaCollector.time last < timestamp)%Z ->
  DeltaCollector.networkSpeed (DeltaCollector.mkCollector (Some last))
    totalRx totalTx timestamp =
  (mkSpeeds
     (inject_Z (totalTx - DeltaCollector.tx last)
      / seconds_between timestamp (DeltaCollector.time last))
     (inject_Z (totalRx - DeltaCollector.rx last)
      / seconds_between timestamp (DeltaCollector.time last)),
   DeltaCollector.mkCollector
     (Some (DeltaCollector.mkSnapshot totalRx totalTx timestamp))).
Proof.
  intros H. unfold DeltaCollector.networkSpeed, Qgtb.
  cbn [DeltaCollector.lastNetSnapshot].
  rewrite seconds_between_positive by assumption. reflexivity.
Qed.

(** [Math.max(0, delta / dt)] is [max(0, delta) / dt] when [dt > 0]. *)
Lemma Qmax_0_div (delta : Z) (dt : Q) :
  0 < dt -> Qmax 0 (inject_Z delta / dt) == inject_Z (Z.max 0 delta) / dt.
Proof.
  intros Hdt.
  assert (Hinv : 0 < / dt) by (apply Qinv_lt_0_compat; assumption).
  destruct (Z.le_gt_cases delta 0) as [Hneg|Hpos].
  - rewrite Z.max_l by assumption.
    rewrite Q.max_l.
    + unfold Qdiv. rewrite Qmult_0_l. reflexivity.
    + unfold Qdiv. rewrite <- (Qmult_0_l (/ dt)).
      apply Qmult_le_compat_r; [|apply Qlt_le_weak; assumption].
      unfold Qle, inject_Z. cbn. lia.
  - rewrite Z.max_r by lia.
    apply Q.max_r.
    unfold Qdiv. rewrite <- (Qmult_0_l (/ dt)).
    apply Qmult_le_compat_r; [|apply Qlt_le_weak; assumption].
    unfold Qle, inject_Z. cbn. lia.
Qed.

(** The [calculateNetworkSpeed] revision on a later timestamp: the
    rates are the clamped deltas over the elapsed seconds, never
    negative, and the snapshot is replaced. *)
Lemma SpeedCollector_positive_dt (last : SpeedCollector.NetworkStats)
    (networkStats : list NetworkStatsData) (timestamp : Z) :
  networkStats <> [] ->
  (SpeedCollector.timestamp last < timestamp)%Z ->
  let '(s, c') :=
    SpeedCollector.calculateNetworkSpeed
      (SpeedCollector.mkCollector (Some last)) networkStats timestamp in
  let dt := seconds_between timestamp (SpeedCollector.timestamp last) in
  upload s ==
    inject_Z (Z.max 0 (SpeedCollector.sum_tx networkStats - SpeedCollector.tx last)) / dt /\
  download s ==
    inject_Z (Z.max 0 (SpeedCollector.sum_rx networkStats - SpeedCollector.rx last)) / dt /\
  0 <= upload s /\ 0 <= download s /\
  c' = SpeedCollector.mkCollector
         (Some (SpeedCollector.mkLast (SpeedCollector.sum_rx networkStats)
                  (SpeedCollector.sum_tx networkStats) timestamp)).
Proof.
  intros Hne Hlt. unfold SpeedCollector.calculateNetworkSpeed.
  destruct networkStats as [|st rest]; [congruence|].
  replace (Z.of_nat (length (st :: rest)) =? 0)%Z with false
    by (symmetry; apply Z.eqb_neq; cbn [length]; lia).
  cbn [SpeedCollector.lastNetworkStats].
  rewrite seconds_between_positive by assumption.
  cbn [upload download].
  pose proof (seconds_between_gt_0 Hlt) as Hdt.
  repeat split.
  - apply Qmax_0_div; assumption.
  - apply Qmax_0_div; assumption.
  - apply Q.le_max_l.
  - apply Q.le_max_l.
Qed.

(** The [calculateNetworkSpeed] revision on a timestamp that is not
    later than the stored one: both rates are 0 and the collector is
    returned as it was. *)
Lemma SpeedCollector_nonpositive_dt (last : SpeedCollector.NetworkStats)
    (networkStats : list NetworkStatsData) (timestamp : Z) :
  (timestamp <= SpeedCollector.timestamp last)%Z ->
  SpeedCollector.calculateNetworkSpeed
    (SpeedCollector.mkCollector (Some last)) networkStats timestamp =
  (mkSpeeds 0 0, SpeedCollector.mkCollector (Some last)).
Proof.
  intros H. unfold SpeedCollector.calculateNetworkSpeed.
  destruct (_ =? _)%Z; [reflexivity|].
  cbn [SpeedCollector.lastNetworkStats].
  rewrite seconds_between_nonpositive by assumption. reflexivity.
Qed.

End ThroughputProperties.

(* ------------------------------------------------------------------ *)
(** ** Statements about the reporting loop *)

Section LoopClaims.

Context {ReportPayload : Type}.
Context {StaticSystemInfo : Type}.
Variable respond : list ReportPayload -> ReportPayload -> Reporter.Outcome.

(** C8, as the code has it.  [start()] on a client that is already
    running resolves without doing anything: the client and the world
    are unchanged, so no retry pass is made, no collection cycle is
    launched and no second interval is armed. *)
Theorem start_while_running_is_a_noop
    (c : MonitorClient.t ReportPayload StaticSystemInfo)
    (w : Reporter.World ReportPayload) (static : completion StaticSystemInfo) :
  MonitorClient.isRunning c = true ->
  MonitorClient.start respond c w static = (Normal tt, c, w).
Proof.
  intros H. unfold MonitorClient.start. rewrite H. reflexivity.
Qed.

End LoopClaims.

(** C8, as stated, fails: [start()] on a running client does not report
    an error, it resolves. *)
Lemma start_while_running_does_not_fail :
  MonitorClient.isRunning Sample.running = true /\
  fst (fst (MonitorClient.start Sample.up Sample.running Sample.running_world (Normal tt)))
    <> Throw.
Proof.
  split; [reflexivity | vm_compute; discriminate].
Qed.

Lemma start_while_running_is_a_noop_witness :
  MonitorClient.isRunning Sample.running = true /\
  MonitorClient.start Sample.up Sample.running Sample.running_world (Normal tt) =
    (Normal tt, Sample.running, Sample.running_world).
Proof.
  split; [reflexivity|].
  apply (start_while_running_is_a_noop Sample.up Sample.running Sample.running_world
           (Normal tt)).
  reflexivity.
Defined.

(* ------------------------------------------------------------------ *)
(** ** Where the code and the design part ways *)

(** With a capacity of 0 nothing is ever evicted: [slice(-0)] is
    [slice(0)], the whole array. *)
Lemma cacheFailedReport_capacity_zero (ReportPayload StaticSystemInfo : Type)
    (r : Reporter.t ReportPayload StaticSystemInfo) (w : Reporter.World ReportPayload)
    (p : ReportPayload) (now : Z) :
  cacheSize (Reporter.config r) = 0%Z ->
  Reporter.cache (fst (Reporter.cacheFailedReport r w p now)) =
  Reporter.cache r ++ [Reporter.mkCached p now 0].
Proof.
  intros H. rewrite cacheFailedReport_cache. cbn zeta. rewrite H.
  destruct (_ >? _)%Z; [apply slice_zero | reflexivity].
Qed.

(** The scenario of the design: capacity 2, payloads 1, 2, 3 cached in
    this order; the cache ends as the entries of 2 and 3. *)
Example cache_capacity_two :
  Reporter.cache (fst (cacheAll (Sample.reporter0 3 2) Sample.world0
                         [(1%nat, 10%Z); (2%nat, 20%Z); (3%nat, 30%Z)]))
  = [Reporter.mkCached 2%nat 20 0; Reporter.mkCached 3%nat 30 0].
Proof. reflexivity. Qed.

(** C1 at [cacheSize = 0].  One call on an empty cache leaves one entry
    in it, and three calls leave three: the cache exceeds its capacity
    and nothing is dropped. *)
Theorem cacheFailedReport_capacity_zero_exceeds_limit :
  let r0 := Sample.reporter0 3 0 in
  cacheSize (Reporter.config r0) = 0%Z /\
  Reporter.cache r0 = [] /\
  Reporter.cache (fst (Reporter.cacheFailedReport r0 Sample.world0 1%nat 10))
    = [Reporter.mkCached 1%nat 10 0] /\
  Reporter.cache (fst (cacheAll r0 Sample.world0 [(1%nat, 10%Z); (2%nat, 20%Z); (3%nat, 30%Z)]))
    = [Reporter.mkCached 1%nat 10 0; Reporter.mkCached 2%nat 20 0;
       Reporter.mkCached 3%nat 30 0] /\
  (Reporter.getCacheSize
     (fst (cacheAll r0 Sample.world0 [(1%nat, 10%Z); (2%nat, 20%Z); (3%nat, 30%Z)]))
   > cacheSize (Reporter.config r0))%Z.
Proof.
  cbn zeta. repeat split.
Qed.

(** C3 on [calculateNetworkSpeed].  The stored snapshot is
    [{rx: 1000, tx: 500, timestamp: 2000}] and a sample with totals
    4000 and 900 arrives stamped 1000: the rates are 0, and the
    collector still holds the old snapshot, not the new sample. *)
Theorem calculateNetworkSpeed_keeps_old_snapshot :
  let c := SpeedCollector.mkCollector (Some (SpeedCollector.mkLast 1000 500 2000)) in
  let '(s, c') :=
    SpeedCollector.calculateNetworkSpeed c [mkStats (Some 4000%Z) (Some 900%Z)] 1000 in
  s = mkSpeeds 0 0 /\
  SpeedCollector.lastNetworkStats c' = Some (SpeedCollector.mkLast 1000 500 2000) /\
  SpeedCollector.lastNetworkStats c' <> Some (SpeedCollector.mkLast 4000 900 1000).
Proof.
  cbn. repeat split. discriminate.
Qed.

(** C4 on the inline derivation of [collectDynamicStatus].  The stored
    snapshot is [{rx: 5000, tx: 3000, time: 1000}] and one second later
    the interface reports totals 100 and 50, as after a counter reset:
    the status carries an upload rate of -2950 and a download rate of
    -4900 bytes per second. *)
Theorem collectDynamicStatus_negative_rates :
  let c := DeltaCollector.mkCollector (Some (DeltaCollector.mkSnapshot 5000 3000 1000)) in
  let readings :=
    DeltaCollector.mkReadings tt
      [DeltaCollector.Stat (mkStats (Some 100%Z) (Some 50%Z))] in
  match fst (DeltaCollector.collectDynamicStatus c 2000 (Normal readings)) with
  | Normal status =>
      DeltaCollector.networkUpload status == -2950 # 1 /\
      DeltaCollector.networkDownload status == -4900 # 1 /\
      DeltaCollector.networkUpload status < 0 /\
      DeltaCollector.networkDownload status < 0
  | Throw => False
  end.
Proof.
  cbn. repeat split.
Qed.

(* ------------------------------------------------------------------ *)
(** ** The statements at concrete inputs *)

(** One fresh entry, three retries allowed, the server down. *)
Lemma retry_failure_increments_and_drops_at_maxRetries_witness :
  let e := Reporter.mkCached 7%nat 1000 0 in
  let r := Sample.holding 3 100 [e] in
  let w := Sample.world0 in
  nth_error (Reporter.cache r) 0 = Some e /\
  Reporter.delivered (attempt Sample.down w (Reporter.cache r) 0 e) = false /\
  (In (Reporter.bump e) (Reporter.cache (fst (Reporter.retryCachedReports Sample.down r w)))
   <-> (Reporter.retryCount e + 1 < maxRetries (Reporter.config r))%Z) /\
  Reporter.cache (fst (retryRounds Sample.down 1 r w)) = [Reporter.mkCached 7%nat 1000 1] /\
  Reporter.cache (fst (retryRounds Sample.down 2 r w)) = [Reporter.mkCached 7%nat 1000 2] /\
  Reporter.cache (fst (retryRounds Sample.down 3 r w)) = [] /\
  Reporter.posts (snd (retryRounds Sample.down 4 r w)) = [7; 7; 7]%nat.
Proof.
  cbn zeta.
  destruct (@retry_failure_increments_and_drops_at_maxRetries nat unit Sample.down
              (Sample.holding 3 100 [Reporter.mkCached 7%nat 1000 0]) Sample.world0
              0%nat (Reporter.mkCached 7%nat 1000 0) eq_refl eq_refl) as [Hkept Hrounds].
  destruct (Hrounds eq_refl eq_refl eq_refl (fun _ _ => eq_refl)) as (H1 & H2 & H3 & Hn).
  destruct (Hn 4%nat ltac:(lia)) as [_ H4].
  repeat split; try assumption; apply Hkept.
Defined.

(** Two cached entries, the server up. *)
Lemma retry_all_delivered_empties_cache_witness :
  let r := Sample.holding 3 100
             [Reporter.mkCached 7%nat 1000 0; Reporter.mkCached 8%nat 2000 1] in
  (forall posted body, Reporter.delivered (Sample.up posted body) = true) /\
  Reporter.cache (fst (Reporter.retryCachedReports Sample.up r Sample.world0)) = [] /\
  Reporter.posts (snd (Reporter.retryCachedReports Sample.up r Sample.world0))
    = Reporter.posts Sample.world0 ++ map (@Reporter.payload _) (Reporter.cache r) /\
  length (Reporter.posts (snd (Reporter.retryCachedReports Sample.up r Sample.world0)))
    = (length (Reporter.posts Sample.world0) + length (Reporter.cache r))%nat.
Proof.
  cbn zeta. split; [intros; reflexivity|].
  apply (@retry_all_delivered_empties_cache nat unit Sample.up
           (Sample.holding 3 100
              [Reporter.mkCached 7%nat 1000 0; Reporter.mkCached 8%nat 2000 1])
           Sample.world0).
  intros; reflexivity.
Defined.

(** A backlog of two, and a fresh payload the server accepts. *)
Lemma report_2xx_clears_cache_witness :
  let r := Sample.holding 3 100
             [Reporter.mkCached 7%nat 1000 0; Reporter.mkCached 8%nat 2000 1] in
  Sample.up (Reporter.posts Sample.world0) 9%nat = Reporter.Response 200 /\
  (200 <= 200 < 300)%Z /\
  let '(result, r', _) := Reporter.report Sample.up r Sample.world0 9%nat 3000 in
  result = Normal tt /\ Reporter.cache r' = [] /\ Reporter.getCacheSize r' = 0%Z.
Proof.
  cbn zeta. split; [reflexivity|]. split; [lia|].
  apply (@report_2xx_clears_cache nat unit Sample.up
           (Sample.holding 3 100
              [Reporter.mkCached 7%nat 1000 0; Reporter.mkCached 8%nat 2000 1])
           Sample.world0 9%nat 3000%Z 200%Z); [reflexivity | lia].
Defined.

(** A full cache of two, and a fresh payload the server answers with
    500. *)
Lemma failed_report_is_cached_failed_retry_is_not_witness :
  let r := Sample.holding 3 2
             [Reporter.mkCached 7%nat 1000 0; Reporter.mkCached 8%nat 2000 1] in
  (0 <= cacheSize (Reporter.config r))%Z /\
  (exists status, Sample.broken (Reporter.posts Sample.world0) 9%nat
                    = Reporter.Response status /\ ~ (200 <= status < 300)%Z) /\
  (let '(result, r', _) := Reporter.report Sample.broken r Sample.world0 9%nat 3000 in
   result = Throw /\
   exists older, Reporter.cache r' = older ++ [Reporter.mkCached 9%nat 3000 0]) /\
  (let r' := fst (Reporter.retryCachedReports Sample.broken r Sample.world0) in
   (length (Reporter.cache r') <= length (Reporter.cache r))%nat /\
   forall x, In x (Reporter.cache r') ->
     exists e, In e (Reporter.cache r) /\ x = Reporter.bump e).
Proof.
  cbn zeta.
  assert (Hstatus : exists status,
             Sample.broken (Reporter.posts Sample.world0) 9%nat = Reporter.Response status /\
             ~ (200 <= status < 300)%Z)
    by (exists 500%Z; split; [reflexivity | lia]).
  split; [cbn; lia|]. split; [exact Hstatus|].
  apply (@failed_report_is_cached_failed_retry_is_not nat unit Sample.broken
           (Sample.holding 3 2
              [Reporter.mkCached 7%nat 1000 0; Reporter.mkCached 8%nat 2000 1])
           Sample.world0 9%nat 3000%Z); [cbn; lia | right; exact Hstatus].
Defined.

(** An empty cache in memory over a cache file that does not parse. *)
Lemma clearCache_on_empty_cache_writes_nothing_witness :
  Reporter.cache (Sample.reporter0 3 100) = [] /\
  Reporter.clearCache (Sample.reporter0 3 100) Sample.corrupt
    = (Sample.reporter0 3 100, Sample.corrupt).
Proof.
  split; [reflexivity|].
  apply (@clearCache_on_empty_cache_writes_nothing nat unit
           (Sample.reporter0 3 100) Sample.corrupt).
  reflexivity.
Defined.

(** No identity file and a directory that cannot be written to. *)
Lemma loadOrGenerateClientId_never_fails_witness :
  (forall n, Sample.uuid n <> []) /\
  exists id w',
    Reporter.loadOrGenerateClientId Sample.uuid Sample.readonly = (Normal id, w') /\
    id <> [] /\
    Reporter.id_file (Reporter.fs w') = None.
Proof.
  assert (Huuid : forall n, Sample.uuid n <> []) by (intros n; discriminate).
  split; [exact Huuid|].
  destruct (@loadOrGenerateClientId_never_fails nat Sample.uuid Sample.readonly Huuid)
    as (id & w' & Hrun & Hid & Hrest).
  exists id, w'. split; [exact Hrun|]. split; [exact Hid|].
  cbn in Hrest. destruct Hrest as (_ & Hkeep & _). apply Hkeep. reflexivity.
Defined.

(* ------------------------------------------------------------------ *)
(** ** The configuration that reaches the client *)

Lemma strictEquals_true (a b : JsString.t) :
  JsText.strictEquals a b = true <-> a = b.
Proof.
  unfold JsText.strictEquals. destruct (list_eq_dec N.eq_dec a b); split; congruence.
Qed.

Lemma strictEquals_false (a b : JsString.t) :
  JsText.strictEquals a b = false <-> a <> b.
Proof.
  unfold JsText.strictEquals. destruct (list_eq_dec N.eq_dec a b); split; congruence.
Qed.


(** X2.  On a host whose name is not blank, the loaded configuration
    never has a blank client name: a missing, empty or whitespace-only
    [clientName] is replaced by the host name. *)
Theorem loadConfig_clientName_not_blank (hostname : JsString.t)
    (file : ConfigManager.ConfigFile) :
  JsString.trim hostname <> [] ->
  JsString.trim (clientName (ConfigManager.loadConfig hostname file)) <> [].
Proof.
  intros Hhost. destruct file as [| |config]; cbn; try assumption.
  destruct (negb _ || JsText.strictEquals _ _) eqn:E.
  - assumption.
  - apply orb_false_iff in E. destruct E as [_ E].
    apply strictEquals_false in E. exact E.
Qed.

(** X3.  Validation is idempotent: validating a configuration that was
    written back, every key present, after having been validated gives
    the same configuration. *)
Theorem validateConfig_idempotent (hostname : JsString.t)
    (config : ConfigManager.PartialConfig) :
  ConfigManager.validateConfig hostname
    (ConfigManager.asFile (ConfigManager.validateConfig hostname config))
  = ConfigManager.validateConfig hostname config.
Proof.
  unfold ConfigManager.validateConfig, ConfigManager.asFile.
  cbn [ConfigManager.p_clientName ConfigManager.p_clientTags
       ConfigManager.p_clientPurpose ConfigManager.p_serverUrl
       ConfigManager.p_reportInterval ConfigManager.p_minReportInterval
       ConfigManager.p_maxRetries ConfigManager.p_cacheSize
       ConfigManager.spread clientName clientTags clientPurpose serverUrl
       reportInterval minReportInterval maxRetries cacheSize].
  f_equal.
  - set (m := ConfigManager.spread _ (ConfigManager.p_clientName config)).
    destruct (negb (JsString.truthy m) || JsText.strictEquals (JsString.trim m) []) eqn:E.
    + destruct (negb (JsString.truthy hostname)
                || JsText.strictEquals (JsString.trim hostname) []); reflexivity.
    + rewrite E. reflexivity.
  - set (m := ConfigManager.spread _ (ConfigManager.p_reportInterval config)).
    set (lo := ConfigManager.spread _ (ConfigManager.p_minReportInterval config)).
    destruct (m <? lo)%Z eqn:E.
    + rewrite Z.ltb_irrefl. reflexivity.
    + rewrite E. reflexivity.
Qed.

Lemma loadConfig_clientName_not_blank_witness :
  JsString.trim (JsText.lit "host-1") <> [] /\
  JsString.trim
    (clientName
       (ConfigManager.loadConfig (JsText.lit "host-1")
          (ConfigManager.Parsed
             (ConfigManager.mkPartial (Some (JsText.lit "   ")) ConfigManager.TagsOther
                None None (Some 5000%Z) (Some 10000%Z) None (Some 0%Z))))) <> [].
Proof.
  assert (H : JsString.trim (JsText.lit "host-1") <> []) by (vm_compute; discriminate).
  split; [exact H|].
  apply (loadConfig_clientName_not_blank (JsText.lit "host-1")
           (ConfigManager.Parsed
              (ConfigManager.mkPartial (Some (JsText.lit "   ")) ConfigManager.TagsOther
                 None None (Some 5000%Z) (Some 10000%Z) None (Some 0%Z))) H).
Defined.

(* ------------------------------------------------------------------ *)
(** ** The report cache, beyond the capacity limit *)

Section CacheOnDisk.

Context {ReportPayload : Type}.
Context {StaticSystemInfo : Type}.
Variable uuidv4 : nat -> JsString.t.
Variable respond : list ReportPayload -> ReportPayload -> Reporter.Outcome.

Local Abbreviation reporter := (Reporter.t ReportPayload StaticSystemInfo).
Local Abbreviation world := (Reporter.World ReportPayload).
Local Abbreviation entry := (Reporter.CachedReport ReportPayload).

Implicit Types (r : reporter) (w : world) (p : ReportPayload) (e : entry).

Lemma skipn_map_comm (A B : Type) (f : A -> B) (n : nat) (l : list A) :
  skipn n (map f l) = map f (skipn n l).
Proof.
  revert l. induction n as [|n IH]; intros [|x l]; cbn; auto.
Qed.

(** X4.  With a positive capacity [C], after any non-empty sequence of
    [cacheFailedReport] calls the cache holds at most [C] entries and
    their payloads are the last [C] of: the payloads held before the
    calls, followed by the payloads of the calls.  This holds also for
    a cache that was over-full to begin with. *)
Theorem cache_holds_the_most_recent_payloads
    (calls : list (ReportPayload * Z)) r w :
  (0 < cacheSize (Reporter.config r))%Z ->
  calls <> [] ->
  let r' := fst (cacheAll r w calls) in
  (length (Reporter.cache r') <= Z.to_nat (cacheSize (Reporter.config r)))%nat /\
  map (@Reporter.payload _) (Reporter.cache r') =
    lastn (Z.to_nat (cacheSize (Reporter.config r)))
      (map (@Reporter.payload _) (Reporter.cache r) ++ map fst calls).
Proof.
  intros Hc Hne.
  destruct (@cacheAll_most_recent _ _ calls r w Hc Hne) as [Hlen Hcache].
  cbn zeta in *. split.
  - unfold Reporter.getCacheSize in Hlen. lia.
  - rewrite Hcache. unfold lastn.
    rewrite <- skipn_map_comm, map_app, map_map. cbn [Reporter.payload].
    rewrite !length_app, !length_map. reflexivity.
Qed.

Lemma saveCacheToDisk_writable r w :
  cacheWritable (Reporter.fs w) = true ->
  Reporter.cache_file (Reporter.fs (Reporter.saveCacheToDisk r w))
    = Some (Reporter.Entries (Reporter.cache r)) /\
  Reporter.cache_read_fails (Reporter.fs (Reporter.saveCacheToDisk r w))
    = Reporter.cache_read_fails (Reporter.fs w).
Proof.
  unfold cacheWritable, dirUsable, Reporter.saveCacheToDisk, Reporter.mkdirSync,
    Reporter.writeCacheFile.
  destruct w as [f posted n tm cy]. destruct f as [dir mkf idf rdf wrf cf crf cwf wc].
  cbn. destruct dir, mkf, cwf; cbn; intros H; try discriminate; split; reflexivity.
Qed.

Lemma saveCacheToDisk_not_writable r w :
  cacheWritable (Reporter.fs w) = false ->
  Reporter.cache_file (Reporter.fs (Reporter.saveCacheToDisk r w))
    = Reporter.cache_file (Reporter.fs w) /\
  Reporter.cache_read_fails (Reporter.fs (Reporter.saveCacheToDisk r w))
    = Reporter.cache_read_fails (Reporter.fs w).
Proof.
  unfold cacheWritable, dirUsable, Reporter.saveCacheToDisk, Reporter.mkdirSync,
    Reporter.writeCacheFile.
  destruct w as [f posted n tm cy]. destruct f as [dir mkf idf rdf wrf cf crf cwf wc].
  cbn. destruct dir, mkf, cwf; cbn; intros H; try discriminate; split; reflexivity.
Qed.

(** Obtaining the identifier leaves [failed-reports.json] alone. *)
Lemma loadOrGenerateClientId_keeps_cache_file w :
  Reporter.cache_file (Reporter.fs (snd (Reporter.loadOrGenerateClientId uuidv4 w)))
    = Reporter.cache_file (Reporter.fs w) /\
  Reporter.cache_read_fails (Reporter.fs (snd (Reporter.loadOrGenerateClientId uuidv4 w)))
    = Reporter.cache_read_fails (Reporter.fs w).
Proof.
  destruct w as [f posted n tm cy]. destruct f as [dir mkf idf rdf wrf cf crf cwf wc].
  unfold Reporter.loadOrGenerateClientId, Reporter.loadOrGenerateClientId_try,
    Reporter.mkdirSync, Reporter.writeIdFile, Reporter.call_uuidv4, Reporter.with_fs.
  cbn. destruct dir, mkf; cbn; try (split; reflexivity);
    (destruct idf as [content|]; cbn;
     [destruct rdf; cbn; [split; reflexivity|];
      destruct (JsString.truthy (JsString.trim content)); cbn; [split; reflexivity|] |];
     destruct wrf; cbn; split; reflexivity).
Qed.

(** What a reporter constructed on a disk starts with. *)
Lemma new_cache (cfg : ClientConfig) w :
  exists r : reporter,
    fst (Reporter.new uuidv4 cfg w) = Normal r /\
    Reporter.cache r = storedCache (Reporter.fs w) /\
    Reporter.config r = cfg /\
    Reporter.cache_file
      (Reporter.fs (snd (@Reporter.new _ StaticSystemInfo uuidv4 cfg w)))
      = Reporter.cache_file (Reporter.fs w).
Proof.
  unfold Reporter.new.
  pose proof (loadOrGenerateClientId_keeps_cache_file w) as [Hfile Hflag].
  destruct (Reporter.loadOrGenerateClientId uuidv4 w) as [[id|] w1] eqn:E.
  - cbn [fst snd] in *. eexists. split; [reflexivity|].
    unfold Reporter.loadCacheFromDisk, storedCache. rewrite Hfile, Hflag.
    destruct (Reporter.cache_file (Reporter.fs w)) as [[|l]|];
      destruct (Reporter.cache_read_fails (Reporter.fs w)); cbn; auto.
  - exfalso. unfold Reporter.loadOrGenerateClientId in E.
    destruct (Reporter.loadOrGenerateClientId_try uuidv4 w) as [[?|] ?];
      [|destruct (Reporter.call_uuidv4 _ _)]; discriminate.
Qed.

End CacheOnDisk.

Section Durability.

Context {ReportPayload : Type}.
Context {StaticSystemInfo : Type}.
Variable uuidv4 : nat -> JsString.t.
Variable respond : list ReportPayload -> ReportPayload -> Reporter.Outcome.

Local Abbreviation reporter := (Reporter.t ReportPayload StaticSystemInfo).
Local Abbreviation world := (Reporter.World ReportPayload).
Local Abbreviation entry := (Reporter.CachedReport ReportPayload).

Implicit Types (r : reporter) (w : world) (p : ReportPayload) (e : entry).

Lemma retry_loop_fs cfg (todo acc : list entry) w :
  Reporter.fs (snd (Reporter.retry_loop respond cfg todo acc w)) = Reporter.fs w.
Proof.
  revert acc w. induction todo as [|c rest IH]; intros acc w; cbn [Reporter.retry_loop].
  - reflexivity.
  - unfold Reporter.axios_post.
    destruct (Reporter.delivered _); [|destruct (_ <? _)%Z]; rewrite IH; reflexivity.
Qed.

Lemma restartsWith_saved r (w w' : world) :
  cacheWritable (Reporter.fs w) = true ->
  Reporter.cache_read_fails (Reporter.fs w) = false ->
  w' = Reporter.saveCacheToDisk r w ->
  Reporter.cache_file (Reporter.fs w') = Some (Reporter.Entries (Reporter.cache r)) /\
  restartsWith StaticSystemInfo uuidv4 w' (Reporter.cache r).
Proof.
  intros Hw Hr ->.
  destruct (saveCacheToDisk_writable r w Hw) as [Hfile Hflag]. split; [exact Hfile|].
  intros cfg.
  destruct (@new_cache ReportPayload StaticSystemInfo uuidv4 cfg
              (Reporter.saveCacheToDisk r w)) as (r2 & Hnew & Hcache & _).
  exists r2. split; [exact Hnew|].
  rewrite Hcache. unfold storedCache. rewrite Hfile, Hflag, Hr. reflexivity.
Qed.

(** X5.  On a disk where the cache file can be written and read, every
    operation that changes the cache leaves the file holding the cache
    as it is in memory, entries in order, and a reporter constructed
    afterwards starts with that cache: this holds after
    [cacheFailedReport], after [retryCachedReports] on a non-empty
    cache, and after [clearCache] on a non-empty cache.  (The text of
    the file is not modelled: writing an entry array and parsing it
    back is taken to give the array.) *)
Theorem cache_changes_are_persisted_and_reloaded r w p now :
  cacheWritable (Reporter.fs w) = true ->
  Reporter.cache_read_fails (Reporter.fs w) = false ->
  (let '(r', w') := Reporter.cacheFailedReport r w p now in
   Reporter.cache_file (Reporter.fs w') = Some (Reporter.Entries (Reporter.cache r')) /\
   restartsWith StaticSystemInfo uuidv4 w' (Reporter.cache r')) /\
  (Reporter.cache r <> [] ->
   let '(r', w') := Reporter.retryCachedReports respond r w in
   Reporter.cache_file (Reporter.fs w') = Some (Reporter.Entries (Reporter.cache r')) /\
   restartsWith StaticSystemInfo uuidv4 w' (Reporter.cache r')) /\
  (Reporter.cache r <> [] ->
   let '(r', w') := Reporter.clearCache r w in
   Reporter.cache r' = [] /\
   Reporter.cache_file (Reporter.fs w') = Some (Reporter.Entries []) /\
   restartsWith StaticSystemInfo uuidv4 w' []).
Proof.
  intros Hw Hr. repeat split.
  - unfold Reporter.cacheFailedReport. cbn zeta.
    eapply restartsWith_saved; eauto.
  - unfold Reporter.cacheFailedReport. cbn zeta.
    eapply restartsWith_saved; eauto.
  - intros Hne. unfold Reporter.retryCachedReports.
    destruct (Reporter.cache r) as [|c l] eqn:E; [congruence|].
    replace (Z.of_nat (length (c :: l)) =? 0)%Z with false
      by (symmetry; apply Z.eqb_neq; cbn [length]; lia).
    destruct (Reporter.retry_loop _ _ _ _ _) as [failed w1] eqn:L.
    assert (Hfs : Reporter.fs w1 = Reporter.fs w).
    { change w1 with (snd (failed, w1)). rewrite <- L. apply retry_loop_fs. }
    apply (@restartsWith_saved (Reporter.with_cache r failed) w1); rewrite ?Hfs; auto.
  - intros Hne. unfold Reporter.clearCache.
    destruct (Reporter.cache r) as [|c l] eqn:E; [congruence|].
    replace (Z.of_nat (length (c :: l)) >? 0)%Z with true
      by (symmetry; apply Z.gtb_lt; cbn [length]; lia).
    split; [reflexivity|].
    apply (@restartsWith_saved (Reporter.with_cache r []) w); auto.
Qed.

(** X6.  When the cache file cannot be written (the directory cannot
    be made or [writeFileSync] throws), [cacheFailedReport] still
    completes: the reporter it leaves is the one it leaves on a working
    disk, the file keeps its previous content, and a reporter
    constructed afterwards starts from that previous content. *)
Theorem failed_write_keeps_memory_loses_durability r w p now :
  cacheWritable (Reporter.fs w) = false ->
  let '(r', w') := Reporter.cacheFailedReport r w p now in
  (forall w2 : world, fst (Reporter.cacheFailedReport r w2 p now) = r') /\
  Reporter.cache_file (Reporter.fs w') = Reporter.cache_file (Reporter.fs w) /\
  restartsWith StaticSystemInfo uuidv4 w' (storedCache (Reporter.fs w)).
Proof.
  intros Hw. unfold Reporter.cacheFailedReport. cbn zeta.
  set (r' := if (_ >? _)%Z then _ else _).
  destruct (saveCacheToDisk_not_writable r' w Hw) as [Hfile Hflag].
  split; [reflexivity|]. split; [exact Hfile|].
  intros cfg.
  destruct (@new_cache ReportPayload StaticSystemInfo uuidv4 cfg
              (Reporter.saveCacheToDisk r' w)) as (r2 & Hnew & Hcache & _).
  exists r2. split; [exact Hnew|].
  rewrite Hcache. unfold storedCache. rewrite Hfile, Hflag. reflexivity.
Qed.

(** X7.  A reporter can be constructed whatever state the cache file is
    in.  When the file is missing, cannot be read, or does not parse,
    the reporter starts with an empty cache, and constructing it leaves
    the file as it was. *)
Theorem constructor_starts_empty_on_unusable_cache_file (cfg : ClientConfig) w :
  Reporter.cache_file (Reporter.fs w) = None \/
  Reporter.cache_file (Reporter.fs w) = Some Reporter.Unparsable \/
  Reporter.cache_read_fails (Reporter.fs w) = true ->
  exists r : reporter,
    fst (Reporter.new uuidv4 cfg w) = Normal r /\
    Reporter.cache r = [] /\
    Reporter.cache_file
      (Reporter.fs (snd (@Reporter.new _ StaticSystemInfo uuidv4 cfg w)))
      = Reporter.cache_file (Reporter.fs w).
Proof.
  intros H.
  destruct (@new_cache ReportPayload StaticSystemInfo uuidv4 cfg w)
    as (r & Hnew & Hcache & _ & Hfile).
  exists r. split; [exact Hnew|]. split; [|exact Hfile].
  rewrite Hcache. unfold storedCache.
  destruct H as [H | [H | H]]; rewrite H; try reflexivity.
  destruct (Reporter.cache_file (Reporter.fs w)) as [[|l]|]; reflexivity.
Qed.

End Durability.

(* ------------------------------------------------------------------ *)
(** ** The retry pass, whatever the server answers *)

Section RetryPass.

Context {ReportPayload : Type}.
Context {StaticSystemInfo : Type}.
Variable respond : list ReportPayload -> ReportPayload -> Reporter.Outcome.

Local Abbreviation reporter := (Reporter.t ReportPayload StaticSystemInfo).
Local Abbreviation world := (Reporter.World ReportPayload).
Local Abbreviation entry := (Reporter.CachedReport ReportPayload).

Implicit Types (r : reporter) (w : world) (p : ReportPayload) (e : entry).

Lemma retry_loop_pick cfg (todo : list entry) w :
  exists mask : list bool,
    length mask = length todo /\
    fst (Reporter.retry_loop respond cfg todo [] w)
      = map (@Reporter.bump _) (pick mask todo).
Proof.
  revert w. induction todo as [|c rest IH]; intros w; cbn [Reporter.retry_loop].
  - exists []. split; reflexivity.
  - unfold Reporter.axios_post.
    set (w1 := Reporter.mkWorld _ _ _ _ _).
    destruct (IH w1) as (mask & Hlen & Hpick).
    destruct (Reporter.delivered _).
    + exists (false :: mask). cbn [length pick]. split; [lia | exact Hpick].
    + destruct (_ <? _)%Z.
      * exists (true :: mask). cbn [length pick map]. split; [lia|].
        rewrite retry_loop_acc, Hpick. reflexivity.
      * exists (false :: mask). cbn [length pick]. split; [lia | exact Hpick].
Qed.

(** X8.  After a retry pass, whatever the outcomes of the deliveries:
    every entry left in the cache has a retry counter below
    [maxRetries], and the entries left are entries of the cache before
    the pass with their counters incremented, in the order they had. *)
Theorem retry_pass_keeps_order_and_bound r w :
  let r' := fst (Reporter.retryCachedReports respond r w) in
  (forall x, In x (Reporter.cache r') ->
     (Reporter.retryCount x < maxRetries (Reporter.config r))%Z) /\
  exists mask : list bool,
    length mask = length (Reporter.cache r) /\
    Reporter.cache r' = map (@Reporter.bump _) (pick mask (Reporter.cache r)).
Proof.
  cbn zeta. rewrite retryCachedReports_cache. split.
  - intros x Hx. apply retry_loop_In in Hx.
    destruct Hx as (i & e & _ & _ & Hc & ->). cbn. exact Hc.
  - apply retry_loop_pick.
Qed.

Lemma retry_pass_raises_counters r w (lo : Z) :
  (forall e, In e (Reporter.cache r) -> (lo <= Reporter.retryCount e)%Z) ->
  Reporter.cache r <> [] ->
  forall x, In x (Reporter.cache (fst (Reporter.retryCachedReports respond r w))) ->
    (lo + 1 <= Reporter.retryCount x < maxRetries (Reporter.config r))%Z.
Proof.
  intros Hlo _ x Hx. rewrite retryCachedReports_cache in Hx.
  apply retry_loop_In in Hx. destruct Hx as (i & e & Hn & _ & Hc & ->).
  apply nth_error_In in Hn. specialize (Hlo e Hn). cbn. lia.
Qed.

Lemma retryRounds_raise_counters (k : nat) r w (lo : Z) :
  (forall e, In e (Reporter.cache r) -> (lo <= Reporter.retryCount e)%Z) ->
  forall x, In x (Reporter.cache (fst (retryRounds respond (S k) r w))) ->
    (lo + Z.of_nat (S k) <= Reporter.retryCount x < maxRetries (Reporter.config r))%Z.
Proof.
  revert r w lo. induction k as [|k IH]; intros r w lo Hlo x Hx.
  - rewrite retryRounds_S in Hx. cbn [retryRounds fst] in Hx.
    destruct (Reporter.cache r) as [|c l] eqn:E.
    + rewrite retryCachedReports_empty in Hx by assumption.
      cbn in Hx. rewrite E in Hx. contradiction.
    + apply (@retry_pass_raises_counters r w lo) in Hx;
        [lia | rewrite E; exact Hlo | rewrite E; discriminate].
  - rewrite retryRounds_S in Hx.
    destruct (Reporter.cache r) as [|c l] eqn:E.
    + rewrite retryCachedReports_empty in Hx by assumption. cbn [fst snd] in Hx.
      rewrite retryRounds_empty in Hx by assumption.
      cbn in Hx. rewrite E in Hx. contradiction.
    + apply (IH _ _ (lo + 1)%Z) in Hx.
      * rewrite retryCachedReports_config in Hx. lia.
      * intros e He.
        apply (@retry_pass_raises_counters r w lo) in He;
          [lia | rewrite E; exact Hlo | rewrite E; discriminate].
Qed.

(** X9.  A backlog is gone after at most [maxRetries] retry passes,
    whatever the server answers: starting from entries whose counters
    are not negative, after [max(1, maxRetries)] passes or more, with
    nothing cached in between, the cache is empty, each entry having
    been delivered or dropped. *)
Theorem backlog_is_gone_after_maxRetries_passes (n : nat) r w :
  (forall e, In e (Reporter.cache r) -> (0 <= Reporter.retryCount e)%Z) ->
  (Z.max 1 (maxRetries (Reporter.config r)) <= Z.of_nat n)%Z ->
  Reporter.cache (fst (retryRounds respond n r w)) = [].
Proof.
  intros Hlo Hn. destruct n as [|k]; [lia|].
  destruct (Reporter.cache (fst (retryRounds respond (S k) r w))) as [|x l] eqn:E;
    [reflexivity|].
  assert (Hx : In x (Reporter.cache (fst (retryRounds respond (S k) r w))))
    by (rewrite E; left; reflexivity).
  apply (@retryRounds_raise_counters k r w 0%Z Hlo) in Hx. lia.
Qed.

Lemma cacheFailedReport_posts r w p now :
  Reporter.posts (snd (Reporter.cacheFailedReport r w p now)) = Reporter.posts w.
Proof. unfold Reporter.cacheFailedReport. cbn zeta. apply saveCacheToDisk_posts. Qed.

Lemma clearCache_posts r w :
  Reporter.posts (snd (Reporter.clearCache r w)) = Reporter.posts w.
Proof.
  unfold Reporter.clearCache. destruct (_ >? _)%Z; [apply saveCacheToDisk_posts | reflexivity].
Qed.

(** X10.  Nothing is sent twice within a call, whatever the server
    answers: [report] makes exactly one POST, of its payload (the
    backlog it may clear is not sent), and [retryCachedReports] makes
    exactly one POST per cached entry, in cache order. *)
Theorem each_call_posts_each_payload_once r w p now :
  Reporter.posts (snd (Reporter.report respond r w p now)) = Reporter.posts w ++ [p] /\
  Reporter.posts (snd (Reporter.retryCachedReports respond r w))
    = Reporter.posts w ++ map (@Reporter.payload _) (Reporter.cache r).
Proof.
  split; [|apply retryCachedReports_posts].
  unfold Reporter.report, Reporter.axios_post.
  destruct (Reporter.delivered _).
  - destruct (Reporter.clearCache r _) as [r' w2] eqn:E. cbn [snd].
    change w2 with (snd (r', w2)). rewrite <- E, clearCache_posts. reflexivity.
  - destruct (Reporter.cacheFailedReport r _ p now) as [r' w2] eqn:E. cbn [snd].
    change w2 with (snd (r', w2)). rewrite <- E, cacheFailedReport_posts. reflexivity.
Qed.

End RetryPass.

(* ------------------------------------------------------------------ *)
(** ** The client identifier across restarts *)

Section IdentityAcrossRestarts.

Context {ReportPayload : Type}.
Variable uuidv4 : nat -> JsString.t.

Local Abbreviation world := (Reporter.World ReportPayload).

(** X11.  On a disk where the identity file can be read and written,
    and with a generator whose tokens are non-empty and carry no
    surrounding white space, the identifier is stable: the call after
    the one that obtained it returns the same identifier, read from
    the file, without generating a token and without writing. *)
Theorem client_id_is_stable_across_restarts (w : world) :
  (forall n, uuidv4 n <> [] /\ JsString.trim (uuidv4 n) = uuidv4 n) ->
  dirUsable (Reporter.fs w) = true ->
  Reporter.id_read_fails (Reporter.fs w) = false ->
  Reporter.id_write_fails (Reporter.fs w) = false ->
  exists id w1 w2,
    Reporter.loadOrGenerateClientId uuidv4 w = (Normal id, w1) /\
    Reporter.loadOrGenerateClientId uuidv4 w1 = (Normal id, w2) /\
    Reporter.uuid_calls w2 = Reporter.uuid_calls w1 /\
    Reporter.fs w2 = Reporter.fs w1.
Proof.
  intros Huuid Hdir Hread Hwrite.
  destruct w as [f posted n tm cy].
  destruct f as [dir mkf idf rdf wrf cf crf cwf wc].
  unfold dirUsable in Hdir. cbn in Hdir, Hread, Hwrite. subst rdf wrf.
  assert (Hgen : forall k, exists c rest, uuidv4 k = c :: rest).
  { intros k. destruct (Huuid k) as [Hne _].
    destruct (uuidv4 k) as [|c rest]; [congruence | eauto]. }
  unfold Reporter.loadOrGenerateClientId, Reporter.loadOrGenerateClientId_try,
    Reporter.mkdirSync, Reporter.writeIdFile, Reporter.call_uuidv4, Reporter.with_fs.
  cbn [Reporter.fs Reporter.dir_exists Reporter.mkdir_fails Reporter.id_file
       Reporter.id_read_fails Reporter.id_write_fails Reporter.uuid_calls
       Reporter.posts Reporter.timers Reporter.cycles Reporter.cache_file
       Reporter.cache_read_fails Reporter.cache_write_fails Reporter.write_calls].
  assert (Hmk : (if negb dir
                 then if mkf then @Throw (Reporter.Fs ReportPayload)
                      else Normal (Reporter.mkFs true mkf idf false false cf crf cwf wc)
                 else Normal (Reporter.mkFs dir mkf idf false false cf crf cwf wc))
                = Normal (Reporter.mkFs true mkf idf false false cf crf cwf wc)).
  { destruct dir, mkf; cbn in *; try reflexivity; discriminate. }
  rewrite Hmk. clear Hmk Hdir.
  cbn [Reporter.fs Reporter.dir_exists Reporter.mkdir_fails Reporter.id_file
       Reporter.id_read_fails Reporter.id_write_fails Reporter.uuid_calls
       Reporter.posts Reporter.timers Reporter.cycles Reporter.cache_file
       Reporter.cache_read_fails Reporter.cache_write_fails Reporter.write_calls
       negb orb].
  destruct idf as [content|].
  - destruct (JsString.trim content) as [|c0 rest0] eqn:T; cbn [JsString.truthy].
    + destruct (Huuid n) as [_ Htrim]. destruct (Hgen n) as (c & rest & Hn).
      do 3 eexists. split; [reflexivity|].
      cbn [Reporter.fs Reporter.dir_exists Reporter.mkdir_fails Reporter.id_file
           Reporter.id_read_fails negb].
      rewrite Htrim, Hn. cbn [JsString.truthy]. repeat split.
    + do 3 eexists. split; [reflexivity|].
      cbn [Reporter.fs Reporter.dir_exists Reporter.mkdir_fails Reporter.id_file
           Reporter.id_read_fails negb].
      rewrite T. cbn [JsString.truthy]. repeat split.
  - destruct (Huuid n) as [_ Htrim]. destruct (Hgen n) as (c & rest & Hn).
    do 3 eexists. split; [reflexivity|].
    cbn [Reporter.fs Reporter.dir_exists Reporter.mkdir_fails Reporter.id_file
         Reporter.id_read_fails negb].
    rewrite Htrim, Hn. cbn [JsString.truthy]. repeat split.
Qed.

End IdentityAcrossRestarts.

(* ------------------------------------------------------------------ *)
(** ** Starting, stopping and cycling *)

Section StartUp.

Context {ReportPayload : Type}.
Context {StaticSystemInfo : Type}.
Variable respond : list ReportPayload -> ReportPayload -> Reporter.Outcome.

Local Abbreviation reporter := (Reporter.t ReportPayload StaticSystemInfo).
Local Abbreviation world := (Reporter.World ReportPayload).
Local Abbreviation entry := (Reporter.CachedReport ReportPayload).

Implicit Types (r : reporter) (w : world).

Lemma saveCacheToDisk_rest r w :
  Reporter.uuid_calls (Reporter.saveCacheToDisk r w) = Reporter.uuid_calls w /\
  Reporter.timers (Reporter.saveCacheToDisk r w) = Reporter.timers w /\
  Reporter.cycles (Reporter.saveCacheToDisk r w) = Reporter.cycles w.
Proof.
  unfold Reporter.saveCacheToDisk.
  destruct (negb _); [destruct (Reporter.mkdirSync _)|]; repeat split.
Qed.

Lemma retry_loop_rest cfg (todo acc : list entry) w :
  Reporter.uuid_calls (snd (Reporter.retry_loop respond cfg todo acc w))
    = Reporter.uuid_calls w /\
  Reporter.timers (snd (Reporter.retry_loop respond cfg todo acc w)) = Reporter.timers w /\
  Reporter.cycles (snd (Reporter.retry_loop respond cfg todo acc w)) = Reporter.cycles w.
Proof.
  revert acc w. induction todo as [|c rest IH]; intros acc w; cbn [Reporter.retry_loop].
  - repeat split.
  - unfold Reporter.axios_post.
    destruct (Reporter.delivered _); [|destruct (_ <? _)%Z];
      match goal with
      | |- context [Reporter.retry_loop _ _ _ ?a ?w1] =>
          destruct (IH a w1) as (H1 & H2 & H3); rewrite H1, H2, H3
      end; repeat split.
Qed.

Lemma retryCachedReports_rest r w :
  Reporter.timers (snd (Reporter.retryCachedReports respond r w)) = Reporter.timers w /\
  Reporter.cycles (snd (Reporter.retryCachedReports respond r w)) = Reporter.cycles w /\
  Reporter.staticInfo (fst (Reporter.retryCachedReports respond r w))
    = Reporter.staticInfo r.
Proof.
  unfold Reporter.retryCachedReports.
  destruct (_ =? _)%Z; [repeat split|].
  destruct (Reporter.retry_loop _ _ _ _ _) as [failed w1] eqn:L.
  cbn [fst snd].
  destruct (saveCacheToDisk_rest (Reporter.with_cache r failed) w1) as (_ & H2 & H3).
  destruct (retry_loop_rest (Reporter.config r) (Reporter.cache r) [] w) as (_ & K2 & K3).
  rewrite L in K2, K3. cbn [snd] in K2, K3.
  rewrite H2, H3, K2, K3. repeat split.
Qed.

(** X12.  [start()] on a client that is not running.  If collecting
    the static information fails, the call rejects and leaves the
    client and the world as they were: nothing is sent and no interval
    is armed.  If it succeeds, the call resolves with the client
    running, after one retry pass that posted the backlog in cache
    order and before anything else is sent; exactly one interval is
    armed, with the configured report interval as its period, and one
    collection cycle is launched. *)
Theorem start_flushes_backlog_and_arms_one_interval
    (c : MonitorClient.t ReportPayload StaticSystemInfo) w (static : StaticSystemInfo) :
  MonitorClient.isRunning c = false ->
  MonitorClient.start respond c w Throw = (Throw, c, w) /\
  let '(result, c', w') := MonitorClient.start respond c w (Normal static) in
  result = Normal tt /\
  MonitorClient.isRunning c' = true /\
  MonitorClient.intervalId c' = Some (length (Reporter.timers w)) /\
  Reporter.staticInfo (MonitorClient.reporter c') = Some static /\
  Reporter.posts w' =
    Reporter.posts w ++ map (@Reporter.payload _) (Reporter.cache (MonitorClient.reporter c)) /\
  Reporter.timers w' = Reporter.timers w ++ [reportInterval (MonitorClient.config c)] /\
  Reporter.cycles w' = S (Reporter.cycles w).
Proof.
  intros Hstopped. unfold MonitorClient.start. rewrite Hstopped.
  split; [reflexivity|].
  set (r1 := Reporter.setStaticInfo (MonitorClient.reporter c) static).
  pose proof (retryCachedReports_posts respond r1 w) as Hposts.
  destruct (retryCachedReports_rest r1 w) as (Htimers & Hcycles & Hstatic).
  destruct (Reporter.retryCachedReports respond r1 w) as [r2 w1].
  cbn [fst snd] in *.
  unfold MonitorClient.startReportingLoop.
  cbn [MonitorClient.config MonitorClient.reporter MonitorClient.isRunning
       MonitorClient.intervalId Reporter.posts Reporter.timers Reporter.cycles].
  rewrite Hstatic, Hposts, Htimers, Hcycles. repeat split.
Qed.

End StartUp.

Section LifecycleProperties.

Context {StaticSystemInfo : Type}.
Context {DynamicSystemStatus : Type}.

Local Abbreviation payload := (Payload.ReportPayload StaticSystemInfo DynamicSystemStatus).
Local Abbreviation client := (MonitorClient.t payload StaticSystemInfo).
Local Abbreviation runtime :=
  (@Lifecycle.Runtime StaticSystemInfo DynamicSystemStatus).

Variable respond : list payload -> payload -> Reporter.Outcome.
Variable os_platform : JsString.t.
Variable os_hostname : JsString.t.

Lemma liveTimers_in (rt : runtime) (id : nat) :
  In id (Lifecycle.liveTimers rt) ->
  (id < length (Reporter.timers (Lifecycle.world rt)))%nat /\
  ~ In id (Lifecycle.cleared rt).
Proof.
  unfold Lifecycle.liveTimers. rewrite filter_In, in_seq, negb_true_iff.
  intros [Hseq Hex]. split; [lia|].
  intros Hin. assert (existsb (Nat.eqb id) (Lifecycle.cleared rt) = true).
  { apply existsb_exists. exists id. split; [assumption | apply Nat.eqb_refl]. }
  congruence.
Qed.

Lemma liveTimers_armed (w : Reporter.World payload) (cleared : list nat) (period : Z) :
  (forall id, In id cleared -> (id < length (Reporter.timers w))%nat) ->
  Lifecycle.liveTimers
    (Lifecycle.mkRuntime
       (Reporter.mkWorld (Reporter.fs w) (Reporter.posts w) (Reporter.uuid_calls w)
          (Reporter.timers w ++ [period]) (S (Reporter.cycles w))) cleared)
  = Lifecycle.liveTimers (Lifecycle.mkRuntime w cleared) ++ [length (Reporter.timers w)].
Proof.
  intros Hcl. unfold Lifecycle.liveTimers.
  cbn [Lifecycle.world Lifecycle.cleared Reporter.timers].
  rewrite length_app. cbn [length]. rewrite Nat.add_1_r, seq_S, filter_app.
  cbn [Nat.add filter].
  destruct (existsb _ cleared) eqn:E; [|reflexivity].
  apply existsb_exists in E. destruct E as (x & Hx & Heq).
  apply Nat.eqb_eq in Heq. subst x. apply Hcl in Hx. lia.
Qed.

Lemma liveTimers_same_timers (w w' : Reporter.World payload) (cleared : list nat) :
  Reporter.timers w' = Reporter.timers w ->
  Lifecycle.liveTimers (Lifecycle.mkRuntime w' cleared)
  = Lifecycle.liveTimers (Lifecycle.mkRuntime w cleared).
Proof.
  intros H. unfold Lifecycle.liveTimers. cbn [Lifecycle.world Lifecycle.cleared].
  rewrite H. reflexivity.
Qed.

Lemma liveTimers_cleared (rt : runtime) (id : nat) :
  Lifecycle.liveTimers rt = [id] ->
  Lifecycle.liveTimers
    (Lifecycle.mkRuntime (Lifecycle.world rt) (id :: Lifecycle.cleared rt)) = [].
Proof.
  unfold Lifecycle.liveTimers. cbn [Lifecycle.world Lifecycle.cleared].
  intros H.
  assert (Hfilter : forall l : list nat,
    filter (fun i => negb (existsb (Nat.eqb i) (id :: Lifecycle.cleared rt))) l
    = filter (fun i => negb (Nat.eqb i id))
        (filter (fun i => negb (existsb (Nat.eqb i) (Lifecycle.cleared rt))) l)).
  { induction l as [|x l IH]; [reflexivity|].
    cbn [filter]. rewrite IH. cbn [existsb].
    destruct (Nat.eqb x id) eqn:E1,
             (existsb (Nat.eqb x) (Lifecycle.cleared rt)) eqn:E2;
      cbn [negb orb filter]; rewrite ?E1; reflexivity. }
  rewrite Hfilter, H. cbn [filter]. rewrite Nat.eqb_refl. reflexivity.
Qed.

Lemma start_consistent (c : client) (rt : runtime) (static : completion StaticSystemInfo) :
  Lifecycle.consistent c rt ->
  let '(_, c', rt') := Lifecycle.start respond c rt static in
  Lifecycle.consistent c' rt'.
Proof.
  intros Hc. unfold Lifecycle.start, MonitorClient.start.
  destruct rt as [w cleared]. pose proof Hc as [Hcl Hstate].
  cbn [Lifecycle.world Lifecycle.cleared] in Hcl |- *.
  destruct (MonitorClient.isRunning c) eqn:Hrun.
  - exact Hc.
  - destruct static as [si|]; [|exact Hc].
    destruct Hstate as [(_ & Hid & Hlive) | (Habs & _)]; [|congruence].
    set (r1 := Reporter.setStaticInfo (MonitorClient.reporter c) si).
    destruct (retryCachedReports_rest respond r1 w) as (Htimers & _ & _).
    destruct (Reporter.retryCachedReports respond r1 w) as [r2 w1].
    cbn [fst snd] in Htimers.
    unfold MonitorClient.startReportingLoop.
    cbn [MonitorClient.config MonitorClient.reporter MonitorClient.isRunning
         MonitorClient.intervalId].
    split.
    + cbn [Lifecycle.world Lifecycle.cleared Reporter.timers].
      intros id Hin. rewrite length_app, Htimers. apply Hcl in Hin. lia.
    + right. split; [reflexivity|]. exists (length (Reporter.timers w1)).
      split; [reflexivity|].
      rewrite liveTimers_armed by (rewrite Htimers; exact Hcl).
      rewrite (@liveTimers_same_timers w w1 cleared Htimers), Hlive. reflexivity.
Qed.

Lemma stop_consistent (c : client) (rt : runtime) :
  Lifecycle.consistent c rt ->
  let '(c', rt') := Lifecycle.stop c rt in
  Lifecycle.consistent c' rt'.
Proof.
  intros Hc. unfold Lifecycle.stop. pose proof Hc as [Hcl Hstate].
  destruct (MonitorClient.isRunning c) eqn:Hrun; cbn [negb].
  - destruct Hstate as [(Habs & _) | (_ & id & Hid & Hlive)]; [congruence|].
    rewrite Hid. split.
    + cbn [Lifecycle.world Lifecycle.cleared]. intros i [Heq | Hin]; [|auto].
      subst i. apply (@liveTimers_in rt id). rewrite Hlive. left; reflexivity.
    + left. cbn [MonitorClient.isRunning MonitorClient.intervalId].
      repeat split. apply liveTimers_cleared. exact Hlive.
  - exact Hc.
Qed.

(** X13.  Calls of [start()] and [stop()] made one after the other, in
    any order and number, with static collection failing or not, keep
    the client and the timers in agreement: when the client is not
    running no interval of its is live, and when it is running exactly
    one is, the one whose handle it holds.  There is never a second
    reporting loop, and [stop()] leaves none behind. *)
Theorem start_stop_keep_at_most_one_interval
    (calls : list (@Lifecycle.Call StaticSystemInfo)) (c : client) (rt : runtime) :
  Lifecycle.consistent c rt ->
  let '(c', rt') := Lifecycle.run respond calls c rt in
  Lifecycle.consistent c' rt' /\
  length (Lifecycle.liveTimers rt') = (if MonitorClient.isRunning c' then 1 else 0)%nat.
Proof.
  revert c rt. induction calls as [|call rest IH]; intros c rt Hc; cbn [Lifecycle.run].
  - split; [exact Hc|].
    destruct Hc as [_ [(Hrun & _ & Hlive) | (Hrun & id & _ & Hlive)]];
      rewrite Hrun, Hlive; reflexivity.
  - destruct call as [static|].
    + pose proof (start_consistent static Hc) as Hs.
      destruct (Lifecycle.start respond c rt static) as [[res c1] rt1].
      apply IH. exact Hs.
    + pose proof (stop_consistent Hc) as Hs.
      destruct (Lifecycle.stop c rt) as [c1 rt1].
      apply IH. exact Hs.
Qed.

End LifecycleProperties.

Section CycleProperties.

Context {StaticSystemInfo : Type}.
Context {DynamicSystemStatus : Type}.

Local Abbreviation payload := (Payload.ReportPayload StaticSystemInfo DynamicSystemStatus).
Local Abbreviation client := (MonitorClient.t payload StaticSystemInfo).

Variable respond : list payload -> payload -> Reporter.Outcome.
Variable os_platform : JsString.t.
Variable os_hostname : JsString.t.

Lemma cacheFailedReport_appends (P S : Type) (r : Reporter.t P S) (w : Reporter.World P)
    (p : P) (now : Z) :
  (0 <= cacheSize (Reporter.config r))%Z ->
  exists older,
    Reporter.cache (fst (Reporter.cacheFailedReport r w p now))
    = older ++ [Reporter.mkCached p now 0].
Proof.
  intros Hsize. rewrite cacheFailedReport_cache. cbn zeta.
  destruct (_ >? _)%Z; [|eexists; reflexivity].
  destruct (Z.eq_dec (cacheSize (Reporter.config r)) 0) as [Z0|NZ].
  - rewrite Z0, slice_zero. eexists; reflexivity.
  - rewrite slice_neg_lastn by lia. unfold lastn.
    rewrite length_app. cbn [length]. rewrite skipn_app.
    replace (length (Reporter.cache r) + 1 - Z.to_nat (cacheSize (Reporter.config r))
             - length (Reporter.cache r))%nat with 0%nat by lia.
    cbn [skipn]. eexists; reflexivity.
Qed.

(** X14.  [buildPayload] throws when the static information has not
    been set.  Once [setStaticInfo] has been called it returns a
    payload that carries that static information, the given dynamic
    status, the reporter's identifier and the configured name, tags
    and purpose, and whose platform is one of [windows], [darwin] and
    [linux]: [windows] for [win32], [darwin] for [darwin], [linux] for
    everything else. *)
Theorem buildPayload_needs_static_info_and_normalises_platform
    (r : Reporter.t payload StaticSystemInfo) (static : StaticSystemInfo)
    (status : DynamicSystemStatus) :
  (Reporter.staticInfo r = None ->
   Payload.buildPayload r os_platform os_hostname status = Throw) /\
  exists p,
    Payload.buildPayload (Reporter.setStaticInfo r static) os_platform os_hostname status
      = Normal p /\
    Payload.staticInfo p = static /\
    Payload.dynamicStatus p = status /\
    Payload.clientId p = Reporter.clientId r /\
    Payload.clientName p = clientName (Reporter.config r) /\
    Payload.clientTags p = clientTags (Reporter.config r) /\
    Payload.clientPurpose p = clientPurpose (Reporter.config r) /\
    Payload.hostname p = os_hostname /\
    (Payload.platform p = JsText.lit "windows" /\ os_platform = JsText.lit "win32" \/
     Payload.platform p = JsText.lit "darwin" /\ os_platform = JsText.lit "darwin" \/
     Payload.platform p = JsText.lit "linux" /\
       os_platform <> JsText.lit "win32" /\ os_platform <> JsText.lit "darwin").
Proof.
  split.
  - intros H. unfold Payload.buildPayload. rewrite H. reflexivity.
  - unfold Payload.buildPayload, Reporter.setStaticInfo.
    cbn [Reporter.staticInfo Reporter.clientId Reporter.config].
    eexists. split; [reflexivity|].
    cbn [Payload.staticInfo Payload.dynamicStatus Payload.clientId Payload.clientName
         Payload.clientTags Payload.clientPurpose Payload.hostname Payload.platform].
    repeat (split; [reflexivity|]).
    unfold Payload.platformName.
    destruct (JsText.strictEquals os_platform (JsText.lit "win32")) eqn:E1.
    + left. apply strictEquals_true in E1. auto.
    + apply strictEquals_false in E1.
      destruct (JsText.strictEquals os_platform (JsText.lit "darwin")) eqn:E2.
      * right; left. apply strictEquals_true in E2. auto.
      * right; right. apply strictEquals_false in E2. auto.
Qed.

(** X15.  One collection cycle.  When collecting the dynamic status
    fails, the cycle changes nothing: nothing is sent, nothing is
    cached.  When a status is collected (static information set,
    capacity not negative), the cycle makes exactly one POST, of the
    payload built from that status, and leaves the loop as it was
    (running flag and interval handle); if the delivery succeeds the
    cache is empty afterwards, and if it fails the payload is the last
    entry of the cache, with [retryCount] 0, and the failure goes no
    further. *)
Theorem cycle_sends_once_and_caches_on_failure
    (c : client) (w : Reporter.World payload) (static : StaticSystemInfo)
    (status : DynamicSystemStatus) (now : Z) :
  Reporter.staticInfo (MonitorClient.reporter c) = Some static ->
  (0 <= cacheSize (Reporter.config (MonitorClient.reporter c)))%Z ->
  Lifecycle.collectAndReport respond os_platform os_hostname c w Throw now = (c, w) /\
  exists p,
    Payload.buildPayload (MonitorClient.reporter c) os_platform os_hostname status
      = Normal p /\
    let '(c', w') :=
      Lifecycle.collectAndReport respond os_platform os_hostname c w (Normal status) now in
    Reporter.posts w' = Reporter.posts w ++ [p] /\
    MonitorClient.isRunning c' = MonitorClient.isRunning c /\
    MonitorClient.intervalId c' = MonitorClient.intervalId c /\
    (Reporter.delivered (respond (Reporter.posts w) p) = true ->
     Reporter.cache (MonitorClient.reporter c') = []) /\
    (Reporter.delivered (respond (Reporter.posts w) p) = false ->
     exists older,
       Reporter.cache (MonitorClient.reporter c') = older ++ [Reporter.mkCached p now 0]).
Proof.
  intros Hstatic Hsize. split; [reflexivity|].
  unfold Lifecycle.collectAndReport, Payload.buildPayload. rewrite Hstatic.
  eexists. split; [reflexivity|].
  set (p := Payload.mkPayload _ _ _ _ _ _ _ _).
  set (r := MonitorClient.reporter c) in *.
  unfold Reporter.report, Reporter.axios_post.
  set (w1 := Reporter.mkWorld _ _ _ _ _).
  destruct (Reporter.delivered (respond (Reporter.posts w) p)) eqn:D.
  - pose proof (clearCache_posts r w1) as Hposts.
    assert (Hcache : Reporter.cache (fst (Reporter.clearCache r w1)) = []).
    { unfold Reporter.clearCache. destruct (Reporter.cache r) as [|x l] eqn:E.
      - cbn. exact E.
      - replace (Z.of_nat (length (x :: l)) >? 0)%Z with true
          by (symmetry; apply Z.gtb_lt; cbn [length]; lia).
        reflexivity. }
    destruct (Reporter.clearCache r w1) as [r' w2]. cbn [fst snd] in *.
    cbn [MonitorClient.reporter MonitorClient.isRunning MonitorClient.intervalId].
    repeat split; try assumption; intros; try assumption; discriminate.
  - pose proof (cacheFailedReport_posts r w1 p now) as Hposts.
    pose proof (@cacheFailedReport_appends _ _ r w1 p now Hsize) as Hcache.
    destruct (Reporter.cacheFailedReport r w1 p now) as [r' w2]. cbn [fst snd] in *.
    cbn [MonitorClient.reporter MonitorClient.isRunning MonitorClient.intervalId].
    repeat split; try assumption; intros; try assumption; discriminate.
Qed.

End CycleProperties.

(* ------------------------------------------------------------------ *)
(** ** The two throughput derivations side by side *)

Section ThroughputRevisions.

Lemma sum_ifaces_from (ifaces : list DeltaCollector.IfaceStats) (a b : Z) :
  fold_left
    (fun '(totalRx, totalTx) i =>
       match i with
       | DeltaCollector.Stat stat =>
           ((totalRx + or0 (rx_bytes stat))%Z, (totalTx + or0 (tx_bytes stat))%Z)
       | DeltaCollector.NoStat => (totalRx, totalTx)
       | DeltaCollector.StatsThrew => (totalRx, totalTx)
       end) ifaces (a, b)
  = (fold_left (fun sum stat => (sum + or0 (rx_bytes stat))%Z) (responding ifaces) a,
     fold_left (fun sum stat => (sum + or0 (tx_bytes stat))%Z) (responding ifaces) b).
Proof.
  revert a b. induction ifaces as [|i rest IH]; intros a b; [reflexivity|].
  cbn [fold_left]. destruct i as [| |stat]; rewrite IH; reflexivity.
Qed.

(** X16.  In the inline derivation an interface whose statistics call
    throws, or returns nothing, neither aborts the collection nor
    counts: the totals are the sums over the interfaces that did
    return statistics, the same sums [calculateNetworkSpeed] takes over
    its readings; a missing byte count counts as 0. *)
Theorem sum_ifaces_skips_failing_interfaces (ifaces : list DeltaCollector.IfaceStats) :
  DeltaCollector.sum_ifaces ifaces =
  (SpeedCollector.sum_rx (responding ifaces), SpeedCollector.sum_tx (responding ifaces)).
Proof.
  unfold DeltaCollector.sum_ifaces, SpeedCollector.sum_rx, SpeedCollector.sum_tx.
  apply sum_ifaces_from.
Qed.

Lemma responding_all (networkStats : list NetworkStatsData) :
  responding (map DeltaCollector.Stat networkStats) = networkStats.
Proof.
  induction networkStats as [|s l IH]; [reflexivity|]. cbn. f_equal. exact IH.
Qed.

(** X17.  [calculateNetworkSpeed] never reports a negative rate,
    whatever the collector holds and whatever the readings and the
    timestamp are. *)
Theorem calculateNetworkSpeed_rates_not_negative (c : SpeedCollector.t)
    (networkStats : list NetworkStatsData) (timestamp : Z) :
  let s := fst (SpeedCollector.calculateNetworkSpeed c networkStats timestamp) in
  0 <= upload s /\ 0 <= download s.
Proof.
  unfold SpeedCollector.calculateNetworkSpeed.
  destruct (_ =? _)%Z; [cbn; split; apply Qle_refl|].
  destruct (SpeedCollector.lastNetworkStats c) as [last|]; [|cbn; split; apply Qle_refl].
  destruct (Qle_bool _ 0); cbn [fst upload download].
  - split; apply Qle_refl.
  - split; apply Q.le_max_l.
Qed.

(** X18.  On the same history the two derivations agree as long as the
    counters do not go back: with the same stored snapshot, readings
    from at least one interface, none of them failing, a later
    timestamp and totals not below the stored ones, both report the
    same upload and download rates and both store the new totals and
    timestamp. *)
Theorem revisions_agree_on_growing_counters (Metrics : Type) (m : Metrics)
    (last_rx last_tx last_time : Z) (networkStats : list NetworkStatsData) (now : Z) :
  networkStats <> [] ->
  (last_time < now)%Z ->
  (last_rx <= SpeedCollector.sum_rx networkStats)%Z ->
  (last_tx <= SpeedCollector.sum_tx networkStats)%Z ->
  let '(s, c1) :=
    SpeedCollector.calculateNetworkSpeed
      (SpeedCollector.mkCollector (Some (SpeedCollector.mkLast last_rx last_tx last_time)))
      networkStats now in
  let '(result, c2) :=
    DeltaCollector.collectDynamicStatus
      (DeltaCollector.mkCollector
         (Some (DeltaCollector.mkSnapshot last_rx last_tx last_time)))
      now
      (Normal (DeltaCollector.mkReadings m (map DeltaCollector.Stat networkStats))) in
  exists status,
    result = Normal status /\
    DeltaCollector.networkUpload status == upload s /\
    DeltaCollector.networkDownload status == download s /\
    SpeedCollector.lastNetworkStats c1 =
      Some (SpeedCollector.mkLast (SpeedCollector.sum_rx networkStats)
              (SpeedCollector.sum_tx networkStats) now) /\
    DeltaCollector.lastNetSnapshot c2 =
      Some (DeltaCollector.mkSnapshot (SpeedCollector.sum_rx networkStats)
              (SpeedCollector.sum_tx networkStats) now).
Proof.
  intros Hne Hlt Hrx Htx.
  unfold SpeedCollector.calculateNetworkSpeed, DeltaCollector.collectDynamicStatus.
  cbn [DeltaCollector.ifaces DeltaCollector.readMetrics].
  unfold DeltaCollector.sum_ifaces. rewrite sum_ifaces_from, responding_all.
  change (fold_left (fun sum stat => (sum + or0 (rx_bytes stat))%Z) networkStats 0%Z)
    with (SpeedCollector.sum_rx networkStats).
  change (fold_left (fun sum stat => (sum + or0 (tx_bytes stat))%Z) networkStats 0%Z)
    with (SpeedCollector.sum_tx networkStats).
  destruct networkStats as [|st rest]; [congruence|].
  replace (Z.of_nat (length (st :: rest)) =? 0)%Z with false
    by (symmetry; apply Z.eqb_neq; cbn [length]; lia).
  cbn [SpeedCollector.lastNetworkStats SpeedCollector.timestamp SpeedCollector.rx
       SpeedCollector.tx].
  rewrite seconds_between_positive by assumption.
  rewrite DeltaCollector_positive_dt by assumption.
  cbn [DeltaCollector.tx DeltaCollector.rx DeltaCollector.time upload download].
  pose proof (seconds_between_gt_0 Hlt) as Hdt.
  eexists. split; [reflexivity|].
  cbn [DeltaCollector.networkUpload DeltaCollector.networkDownload
       SpeedCollector.lastNetworkStats DeltaCollector.lastNetSnapshot].
  repeat split.
  - rewrite Qmax_0_div by assumption. rewrite Z.max_r by lia. reflexivity.
  - rewrite Qmax_0_div by assumption. rewrite Z.max_r by lia. reflexivity.
Qed.

End ThroughputRevisions.

(** X19.  A fresh collector reports 0 for both rates on its first
    non-empty reading, whatever the counters are; on the next reading,
    taken later and with totals that have grown by [T] transmitted and
    [R] received bytes, [calculateNetworkSpeed] reports [T / dt] up and
    [R / dt] down, [dt] being the seconds between the two readings. *)
Theorem first_reading_is_zero_second_is_delta_over_seconds
    (first second : list NetworkStatsData) (t1 t2 : Z) :
  first <> [] ->
  second <> [] ->
  (t1 < t2)%Z ->
  (SpeedCollector.sum_rx first <= SpeedCollector.sum_rx second)%Z ->
  (SpeedCollector.sum_tx first <= SpeedCollector.sum_tx second)%Z ->
  let '(s1, c1) :=
    SpeedCollector.calculateNetworkSpeed (SpeedCollector.mkCollector None) first t1 in
  let '(s2, _) := SpeedCollector.calculateNetworkSpeed c1 second t2 in
  s1 = mkSpeeds 0 0 /\
  upload s2 ==
    inject_Z (SpeedCollector.sum_tx second - SpeedCollector.sum_tx first)
    / seconds_between t2 t1 /\
  download s2 ==
    inject_Z (SpeedCollector.sum_rx second - SpeedCollector.sum_rx first)
    / seconds_between t2 t1.
Proof.
  intros H1 H2 Hlt Hrx Htx.
  unfold SpeedCollector.calculateNetworkSpeed at 1.
  destruct first as [|f1 rest1]; [congruence|].
  replace (Z.of_nat (length (f1 :: rest1)) =? 0)%Z with false
    by (symmetry; apply Z.eqb_neq; cbn [length]; lia).
  cbn [SpeedCollector.lastNetworkStats].
  set (last := SpeedCollector.mkLast _ _ t1).
  pose proof (@SpeedCollector_positive_dt last second t2 H2 Hlt) as Hsecond.
  destruct (SpeedCollector.calculateNetworkSpeed _ second t2) as [s2 c2].
  cbn zeta in Hsecond. destruct Hsecond as (Hup & Hdown & _).
  split; [reflexivity|]. subst last.
  cbn [SpeedCollector.timestamp SpeedCollector.tx SpeedCollector.rx] in Hup, Hdown.
  rewrite Z.max_r in Hup by lia. rewrite Z.max_r in Hdown by lia.
  split; assumption.
Qed.

(* ------------------------------------------------------------------ *)
(** ** Disks, usage percentages and location *)

Section StaticProperties.

Variable toLowerCase : JsString.t -> JsString.t.

Lemma seen_device (d : JsString.t) (processed : list JsString.t) :
  existsb (JsText.strictEquals d) processed = true <-> In d processed.
Proof.
  rewrite existsb_exists. split.
  - intros (x & Hx & E). apply strictEquals_true in E. subst x. exact Hx.
  - intros H. exists d. split; [exact H | apply strictEquals_true; reflexivity].
Qed.

Lemma disks_loop_devices (diskLayout : list StaticCollector.DiskLayoutData)
    (processed : list JsString.t) (disks : list StaticCollector.DiskInfo) :
  map (@StaticCollector.disk_device) disks = processed ->
  NoDup processed ->
  let result := StaticCollector.disks_loop toLowerCase diskLayout processed disks in
  NoDup (map (@StaticCollector.disk_device) result) /\
  (forall d, In d (map (@StaticCollector.disk_device) result) <->
             In d processed \/ In d (map (@StaticCollector.device) diskLayout)) /\
  (length disks <= length result <= length disks + length diskLayout)%nat.
Proof.
  revert processed disks.
  induction diskLayout as [|disk rest IH]; intros processed disks Hmap Hnd;
    cbn [StaticCollector.disks_loop map length].
  - cbn zeta. rewrite Hmap. repeat split; try assumption; try lia; cbn [In]; tauto.
  - destruct (existsb _ processed) eqn:E.
    + apply seen_device in E.
      destruct (IH processed disks Hmap Hnd) as (H1 & H2 & H3). cbn zeta.
      split; [exact H1|]. split; [|lia].
      intros d. rewrite H2. cbn [In]. split; [tauto|].
      intros [H | [H | H]]; auto. subst d. auto.
    + assert (Hnot : ~ In (StaticCollector.device disk) processed).
      { intros H. apply seen_device in H. congruence. }
      unfold JsArray.push.
      match goal with
      | |- context [StaticCollector.disks_loop _ rest ?p ?d] =>
          destruct (IH p d) as (H1 & H2 & H3)
      end.
      * rewrite map_app, Hmap. reflexivity.
      * apply NoDup_app; [assumption | repeat constructor; intros [] |].
        intros x Hx [Hx' | []]. subst x. contradiction.
      * cbn zeta. split; [exact H1|]. split.
        -- intros d. rewrite H2, in_app_iff. cbn [In]. tauto.
        -- rewrite length_app in H3. cbn [length] in H3. lia.
Qed.

Lemma diskTypeOf_not_empty (disk : StaticCollector.DiskLayoutData) :
  StaticCollector.diskTypeOf toLowerCase disk <> [].
Proof.
  unfold StaticCollector.diskTypeOf.
  destruct (StaticCollector.lowerIncludes _ _ _); [discriminate|].
  destruct (StaticCollector.lowerIncludes _ _ _); [discriminate|].
  destruct (StaticCollector.type disk) as [[|c t]|]; cbn; discriminate.
Qed.

Lemma disks_loop_types (diskLayout : list StaticCollector.DiskLayoutData)
    (processed : list JsString.t) (disks : list StaticCollector.DiskInfo) :
  (forall e, In e disks -> StaticCollector.disk_type e <> []) ->
  forall e, In e (StaticCollector.disks_loop toLowerCase diskLayout processed disks) ->
    StaticCollector.disk_type e <> [].
Proof.
  revert processed disks.
  induction diskLayout as [|disk rest IH]; intros processed disks Hall;
    cbn [StaticCollector.disks_loop]; [exact Hall|].
  destruct (existsb _ processed); [apply IH; exact Hall|].
  apply IH. unfold JsArray.push. intros e He. apply in_app_iff in He.
  destruct He as [He | [<- | []]]; [apply Hall; exact He|].
  cbn [StaticCollector.disk_type]. apply diskTypeOf_not_empty.
Qed.

(** X20.  The disk list of the static information has one entry per
    device: no device appears twice, a device appears in the list
    exactly when it appears in the disk layout, and every entry has a
    non-empty type. *)
Theorem collectDisks_one_entry_per_device
    (diskLayout : list StaticCollector.DiskLayoutData) :
  let disks := StaticCollector.collectDisks toLowerCase diskLayout in
  NoDup (map (@StaticCollector.disk_device) disks) /\
  (forall d, In d (map (@StaticCollector.disk_device) disks) <->
             In d (map (@StaticCollector.device) diskLayout)) /\
  (length disks <= length diskLayout)%nat /\
  (forall e, In e disks -> StaticCollector.disk_type e <> []).
Proof.
  cbn zeta. unfold StaticCollector.collectDisks.
  destruct (@disks_loop_devices diskLayout [] [] eq_refl (NoDup_nil _)) as (H1 & H2 & H3).
  cbn zeta in *. split; [exact H1|]. split; [|split].
  - intros d. rewrite H2. cbn [In]. tauto.
  - cbn [length] in H3. lia.
  - apply disks_loop_types. intros e [].
Qed.

End StaticProperties.

Section UsageAndLocation.

Lemma disk_sums_from (fsSize : list StaticCollector.FsSizeData) (used total : Z) :
  (forall disk, In disk fsSize ->
     (0 <= StaticCollector.fs_used disk <= StaticCollector.fs_size disk)%Z) ->
  (0 <= used <= total)%Z ->
  (0 <= fold_left (fun sum disk => (sum + StaticCollector.fs_used disk)%Z) fsSize used
     <= fold_left (fun sum disk => (sum + StaticCollector.fs_size disk)%Z) fsSize total)%Z.
Proof.
  revert used total. induction fsSize as [|disk rest IH]; intros used total Hall Hacc.
  - exact Hacc.
  - cbn [fold_left]. apply IH.
    + intros d Hd. apply Hall. right. exact Hd.
    + specialize (Hall disk (or_introl eq_refl)). lia.
Qed.

Lemma percentage_range (used total : Z) :
  (0 <= used <= total)%Z ->
  0 <= StaticCollector.percentage used total <= inject_Z 100.
Proof.
  intros H. unfold StaticCollector.percentage.
  destruct (total >? 0)%Z eqn:E.
  - apply Z.gtb_lt in E. destruct total as [|t|t]; try lia.
    unfold Qle, Qdiv, Qmult, Qinv, inject_Z. cbn. split; nia.
  - split; unfold Qle, inject_Z; cbn; lia.
Qed.

(** X21.  The overall disk usage is a percentage: when every file
    system reports a used size between 0 and its size, the figure lies
    between 0 and 100.  It is 0, and nothing is divided by zero, when
    no file system is reported or their sizes add up to 0. *)
Theorem diskUsage_is_a_percentage (fsSize : list StaticCollector.FsSizeData) :
  (forall disk, In disk fsSize ->
     (0 <= StaticCollector.fs_used disk <= StaticCollector.fs_size disk)%Z) ->
  0 <= StaticCollector.diskUsage fsSize <= inject_Z 100 /\
  (StaticCollector.totalDiskSize fsSize = 0%Z -> StaticCollector.diskUsage fsSize = 0).
Proof.
  intros Hall. split.
  - apply percentage_range.
    apply (@disk_sums_from fsSize 0%Z 0%Z Hall). lia.
  - intros H0. unfold StaticCollector.diskUsage, StaticCollector.percentage.
    rewrite H0. reflexivity.
Qed.

Lemma includes_unit (sep : N) (s : JsString.t) :
  JsText.includes s [sep] = true <-> In sep s.
Proof.
  induction s as [|c s IH].
  - cbn. split; [discriminate | tauto].
  - cbn [JsText.includes JsText.startsWith In].
    rewrite orb_true_iff, IH, andb_true_iff, N.eqb_eq.
    split; intros [H|H]; auto.
    + left. symmetry. apply H.
    + left. split; [symmetry; exact H | destruct s; reflexivity].
Qed.

Lemma split_shape (sep : N) (s : JsString.t) :
  JsText.split sep s <> [] /\
  (~ In sep s -> JsText.split sep s = [s]) /\
  (In sep s ->
   (2 <= length (JsText.split sep s))%nat /\
   ~ In sep (last (JsText.split sep s) []) /\
   exists before, s = before ++ sep :: last (JsText.split sep s) []).
Proof.
  induction s as [|c s IH].
  - cbn. split; [discriminate|]. split; [reflexivity | tauto].
  - destruct IH as (Hne & Hnone & Hsome). cbn [JsText.split].
    destruct (N.eqb c sep) eqn:E.
    + apply N.eqb_eq in E. subst c.
      split; [discriminate|]. split; [cbn; tauto|]. intros _.
      assert (Hlast : last ([] :: JsText.split sep s) [] = last (JsText.split sep s) []).
      { destruct (JsText.split sep s); [congruence | reflexivity]. }
      replace (@last JsString.t ([] :: JsText.split sep s) [])
        with (@last JsString.t (JsText.split sep s) [])
        by (symmetry; exact Hlast).
      cbn [length].
      destruct (in_dec N.eq_dec sep s) as [Hin | Hnot].
      * destruct (Hsome Hin) as (Hlen & Hno & before & Hs).
        split; [lia|]. split; [exact Hno|].
        exists (sep :: before). cbn. f_equal. exact Hs.
      * rewrite (Hnone Hnot). cbn. split; [lia|]. split; [exact Hnot|].
        exists []. reflexivity.
    + apply N.eqb_neq in E.
      destruct (JsText.split sep s) as [|part parts] eqn:S; [congruence|].
      split; [discriminate|]. split.
      * intros Hnot. assert (Hnot' : ~ In sep s) by (intros H; apply Hnot; right; exact H).
        specialize (Hnone Hnot'). inversion Hnone. reflexivity.
      * intros [Heq | Hin]; [congruence|].
        destruct (Hsome Hin) as (Hlen & Hno & before & Hs).
        cbn [length] in *.
        destruct parts as [|p2 parts']; [cbn in Hlen; lia|].
        change (last ((c :: part) :: p2 :: parts') []) with (last (p2 :: parts') []).
        change (last (part :: p2 :: parts') []) with (last (p2 :: parts') []) in Hno, Hs.
        split; [lia|]. split; [exact Hno|].
        exists (c :: before). cbn. f_equal. exact Hs.
Qed.

(** X22.  The location derived from a time zone name that contains a
    slash is what follows the last slash, with every underscore
    replaced by a space: it contains neither a slash nor an
    underscore.  A name without a slash is returned as it is, and
    [Unknown] is returned when the time zone cannot be obtained. *)
Theorem getLocationFromTimezone_takes_last_segment (timezone : JsString.t) :
  StaticCollector.getLocationFromTimezone Throw = JsText.lit "Unknown" /\
  (~ In 47%N timezone ->
   StaticCollector.getLocationFromTimezone (Normal timezone) = timezone) /\
  (In 47%N timezone ->
   exists before city,
     timezone = before ++ 47%N :: city /\
     ~ In 47%N city /\
     StaticCollector.getLocationFromTimezone (Normal timezone)
       = JsText.replaceUnderscores city /\
     ~ In 47%N (StaticCollector.getLocationFromTimezone (Normal timezone)) /\
     ~ In 95%N (StaticCollector.getLocationFromTimezone (Normal timezone))).
Proof.
  split; [reflexivity|]. unfold StaticCollector.getLocationFromTimezone.
  change (JsText.lit "/") with [47%N].
  destruct (JsText.includes timezone [47%N]) eqn:I.
  - apply includes_unit in I. split; [tauto|]. intros _.
    destruct (split_shape 47 timezone) as (_ & _ & Hsome).
    destruct (Hsome I) as (_ & Hno & before & Hs).
    exists before, (last (JsText.split 47 timezone) []).
    split; [exact Hs|]. split; [exact Hno|]. split; [reflexivity|].
    unfold JsText.replaceUnderscores. split; rewrite in_map_iff; intros (c & Hc & Hin).
    + destruct (N.eqb c 95) eqn:E; [discriminate|]. subst c. contradiction.
    + destruct (N.eqb c 95) eqn:E; [discriminate|]. apply N.eqb_neq in E. congruence.
  - split; [reflexivity|]. intros Hin. apply includes_unit in Hin. congruence.
Qed.

End UsageAndLocation.

(* ------------------------------------------------------------------ *)
(** ** The further statements at concrete inputs *)

(** A cache of capacity 2 holding payload 7, then 8 and 9 cached. *)
Lemma cache_holds_the_most_recent_payloads_witness :
  let r := Sample.holding 3 2 [Reporter.mkCached 7%nat 1000 0] in
  let calls := [(8%nat, 2000%Z); (9%nat, 3000%Z)] in
  (0 < cacheSize (Reporter.config r))%Z /\
  calls <> [] /\
  (length (Reporter.cache (fst (cacheAll r Sample.world0 calls))) <= 2)%nat /\
  map (@Reporter.payload _) (Reporter.cache (fst (cacheAll r Sample.world0 calls)))
    = [8; 9]%nat.
Proof.
  cbn zeta. split; [reflexivity|]. split; [discriminate|].
  apply (@cache_holds_the_most_recent_payloads nat unit
           [(8%nat, 2000%Z); (9%nat, 3000%Z)]
           (Sample.holding 3 2 [Reporter.mkCached 7%nat 1000 0]) Sample.world0);
    [reflexivity | discriminate].
Defined.

(** A backlog of two on a working disk, the server answering 500. *)
Lemma cache_changes_are_persisted_and_reloaded_witness :
  let r := Sample.holding 3 100 Fixture.backlog in
  let w := Sample.world0 in
  cacheWritable (Reporter.fs w) = true /\
  Reporter.cache_read_fails (Reporter.fs w) = false /\
  Reporter.cache r <> [] /\
  (let '(r', w') := Reporter.cacheFailedReport r w 9%nat 3000 in
   Reporter.cache_file (Reporter.fs w') = Some (Reporter.Entries (Reporter.cache r')) /\
   restartsWith unit Fixture.token w' (Reporter.cache r')) /\
  (let '(r', w') := Reporter.retryCachedReports Sample.broken r w in
   Reporter.cache_file (Reporter.fs w') = Some (Reporter.Entries (Reporter.cache r')) /\
   restartsWith unit Fixture.token w' (Reporter.cache r')) /\
  (let '(r', w') := Reporter.clearCache r w in
   Reporter.cache r' = [] /\
   Reporter.cache_file (Reporter.fs w') = Some (Reporter.Entries []) /\
   restartsWith unit Fixture.token w' []).
Proof.
  cbn zeta.
  assert (Hne : Reporter.cache (Sample.holding 3 100 Fixture.backlog) <> [])
    by discriminate.
  destruct (@cache_changes_are_persisted_and_reloaded nat unit Fixture.token
              Sample.broken (Sample.holding 3 100 Fixture.backlog) Sample.world0
              9%nat 3000%Z eq_refl eq_refl) as (Hcache & Hretry & Hclear).
  split; [reflexivity|]. split; [reflexivity|]. split; [exact Hne|].
  split; [exact Hcache|]. split; [exact (Hretry Hne) | exact (Hclear Hne)].
Defined.

(** The same backlog on a disk that refuses writes. *)
Lemma failed_write_keeps_memory_loses_durability_witness :
  let r := Sample.holding 3 100 Fixture.backlog in
  cacheWritable (Reporter.fs Sample.readonly) = false /\
  let '(r', w') := Reporter.cacheFailedReport r Sample.readonly 9%nat 3000 in
  (forall w2 : Reporter.World nat, fst (Reporter.cacheFailedReport r w2 9%nat 3000) = r') /\
  Reporter.cache_file (Reporter.fs w') = Reporter.cache_file (Reporter.fs Sample.readonly) /\
  restartsWith unit Fixture.token w' (storedCache (Reporter.fs Sample.readonly)).
Proof.
  cbn zeta. split; [reflexivity|].
  apply (@failed_write_keeps_memory_loses_durability nat unit Fixture.token
           (Sample.holding 3 100 Fixture.backlog) Sample.readonly 9%nat 3000%Z).
  reflexivity.
Defined.

(** A cache file that does not parse. *)
Lemma constructor_starts_empty_on_unusable_cache_file_witness :
  Reporter.cache_file (Reporter.fs Sample.corrupt) = Some Reporter.Unparsable /\
  exists r : Reporter.t nat unit,
    fst (Reporter.new Fixture.token (Sample.cfg 3 100) Sample.corrupt) = Normal r /\
    Reporter.cache r = [] /\
    Reporter.cache_file
      (Reporter.fs (snd (@Reporter.new _ unit Fixture.token (Sample.cfg 3 100)
                           Sample.corrupt)))
      = Reporter.cache_file (Reporter.fs Sample.corrupt).
Proof.
  split; [reflexivity|].
  apply (@constructor_starts_empty_on_unusable_cache_file nat unit Fixture.token
           (Sample.cfg 3 100) Sample.corrupt).
  right; left; reflexivity.
Defined.

(** Three retries allowed, three passes, the server answering 500. *)
Lemma backlog_is_gone_after_maxRetries_passes_witness :
  let r := Sample.holding 3 100 Fixture.backlog in
  (forall e, In e (Reporter.cache r) -> (0 <= Reporter.retryCount e)%Z) /\
  (Z.max 1 (maxRetries (Reporter.config r)) <= Z.of_nat 3)%Z /\
  Reporter.cache (fst (retryRounds Sample.broken 3 r Sample.world0)) = [].
Proof.
  cbn zeta.
  assert (Hcounts : forall e, In e (Reporter.cache (Sample.holding 3 100 Fixture.backlog)) ->
                      (0 <= Reporter.retryCount e)%Z).
  { intros e [<- | [<- | []]]; cbn; lia. }
  assert (Hpasses : (Z.max 1 (maxRetries (Reporter.config
                       (Sample.holding 3 100 Fixture.backlog))) <= Z.of_nat 3)%Z)
    by (cbn; lia).
  split; [exact Hcounts|]. split; [exact Hpasses|].
  exact (@backlog_is_gone_after_maxRetries_passes nat unit Sample.broken 3%nat
           (Sample.holding 3 100 Fixture.backlog) Sample.world0 Hcounts Hpasses).
Defined.

(** A first run on an empty, working cache directory. *)
Lemma client_id_is_stable_across_restarts_witness :
  (forall n, Fixture.token n <> [] /\ JsString.trim (Fixture.token n) = Fixture.token n) /\
  dirUsable (Reporter.fs Sample.world0) = true /\
  Reporter.id_read_fails (Reporter.fs Sample.world0) = false /\
  Reporter.id_write_fails (Reporter.fs Sample.world0) = false /\
  exists id w1 w2,
    Reporter.loadOrGenerateClientId Fixture.token Sample.world0 = (Normal id, w1) /\
    Reporter.loadOrGenerateClientId Fixture.token w1 = (Normal id, w2) /\
    Reporter.uuid_calls w2 = Reporter.uuid_calls w1 /\
    Reporter.fs w2 = Reporter.fs w1.
Proof.
  assert (Htoken : forall n, Fixture.token n <> [] /\
                             JsString.trim (Fixture.token n) = Fixture.token n).
  { intros n. split; [discriminate | reflexivity]. }
  split; [exact Htoken|]. repeat (split; [reflexivity|]).
  exact (@client_id_is_stable_across_restarts nat Fixture.token Sample.world0
           Htoken eq_refl eq_refl eq_refl).
Defined.

(** A stopped client and a server that is up. *)
Lemma start_flushes_backlog_and_arms_one_interval_witness :
  MonitorClient.isRunning Sample.stopped = false /\
  MonitorClient.start Sample.up Sample.stopped Sample.world0 Throw
    = (Throw, Sample.stopped, Sample.world0) /\
  let '(result, c', w') :=
    MonitorClient.start Sample.up Sample.stopped Sample.world0 (Normal tt) in
  result = Normal tt /\
  MonitorClient.isRunning c' = true /\
  MonitorClient.intervalId c' = Some (length (Reporter.timers Sample.world0)) /\
  Reporter.staticInfo (MonitorClient.reporter c') = Some tt /\
  Reporter.posts w' =
    Reporter.posts Sample.world0
    ++ map (@Reporter.payload _) (Reporter.cache (MonitorClient.reporter Sample.stopped)) /\
  Reporter.timers w' =
    Reporter.timers Sample.world0 ++ [reportInterval (MonitorClient.config Sample.stopped)] /\
  Reporter.cycles w' = S (Reporter.cycles Sample.world0).
Proof.
  split; [reflexivity|].
  exact (@start_flushes_backlog_and_arms_one_interval nat unit Sample.up Sample.stopped
           Sample.world0 tt eq_refl).
Defined.

(** Two starts, two stops, a failed start and a start. *)
Lemma start_stop_keep_at_most_one_interval_witness :
  Lifecycle.consistent Fixture.idle Fixture.runtime0 /\
  let '(c', rt') :=
    Lifecycle.run Fixture.refusing Fixture.calls Fixture.idle Fixture.runtime0 in
  Lifecycle.consistent c' rt' /\
  length (Lifecycle.liveTimers rt') = (if MonitorClient.isRunning c' then 1 else 0)%nat.
Proof.
  assert (Hidle : Lifecycle.consistent Fixture.idle Fixture.runtime0).
  { split; [intros id [] | left; repeat split]. }
  split; [exact Hidle|].
  exact (@start_stop_keep_at_most_one_interval unit unit Fixture.refusing Fixture.calls
           Fixture.idle Fixture.runtime0 Hidle).
Defined.

(** A running client, a collected status, the server answering 503. *)
Lemma cycle_sends_once_and_caches_on_failure_witness :
  Reporter.staticInfo (MonitorClient.reporter Fixture.looping) = Some tt /\
  (0 <= cacheSize (Reporter.config (MonitorClient.reporter Fixture.looping)))%Z /\
  Lifecycle.collectAndReport Fixture.refusing (JsText.lit "win32") (JsText.lit "host-1")
    Fixture.looping Fixture.emptyWorld Throw 5000 = (Fixture.looping, Fixture.emptyWorld) /\
  exists p,
    Payload.buildPayload (MonitorClient.reporter Fixture.looping) (JsText.lit "win32")
      (JsText.lit "host-1") tt = Normal p /\
    let '(c', w') :=
      Lifecycle.collectAndReport Fixture.refusing (JsText.lit "win32")
        (JsText.lit "host-1") Fixture.looping Fixture.emptyWorld (Normal tt) 5000 in
    Reporter.posts w' = Reporter.posts Fixture.emptyWorld ++ [p] /\
    MonitorClient.isRunning c' = MonitorClient.isRunning Fixture.looping /\
    MonitorClient.intervalId c' = MonitorClient.intervalId Fixture.looping /\
    (Reporter.delivered (Fixture.refusing (Reporter.posts Fixture.emptyWorld) p) = true ->
     Reporter.cache (MonitorClient.reporter c') = []) /\
    (Reporter.delivered (Fixture.refusing (Reporter.posts Fixture.emptyWorld) p) = false ->
     exists older,
       Reporter.cache (MonitorClient.reporter c') = older ++ [Reporter.mkCached p 5000 0]).
Proof.
  assert (Hsize : (0 <= cacheSize (Reporter.config
                     (MonitorClient.reporter Fixture.looping)))%Z) by (cbn; lia).
  split; [reflexivity|]. split; [exact Hsize|].
  exact (@cycle_sends_once_and_caches_on_failure unit unit Fixture.refusing
           (JsText.lit "win32") (JsText.lit "host-1") Fixture.looping Fixture.emptyWorld
           tt tt 5000%Z eq_refl Hsize).
Defined.

(** One interface, two seconds apart, counters grown by 3000 and 500. *)
Lemma revisions_agree_on_growing_counters_witness :
  Fixture.later <> [] /\
  (1000 < 3000)%Z /\
  (1000 <= SpeedCollector.sum_rx Fixture.later)%Z /\
  (400 <= SpeedCollector.sum_tx Fixture.later)%Z /\
  let '(s, c1) :=
    SpeedCollector.calculateNetworkSpeed
      (SpeedCollector.mkCollector (Some (SpeedCollector.mkLast 1000 400 1000)))
      Fixture.later 3000 in
  let '(result, c2) :=
    DeltaCollector.collectDynamicStatus
      (DeltaCollector.mkCollector (Some (DeltaCollector.mkSnapshot 1000 400 1000)))
      3000
      (Normal (DeltaCollector.mkReadings tt (map DeltaCollector.Stat Fixture.later))) in
  exists status,
    result = Normal status /\
    DeltaCollector.networkUpload status == upload s /\
    DeltaCollector.networkDownload status == download s /\
    SpeedCollector.lastNetworkStats c1 =
      Some (SpeedCollector.mkLast (SpeedCollector.sum_rx Fixture.later)
              (SpeedCollector.sum_tx Fixture.later) 3000) /\
    DeltaCollector.lastNetSnapshot c2 =
      Some (DeltaCollector.mkSnapshot (SpeedCollector.sum_rx Fixture.later)
              (SpeedCollector.sum_tx Fixture.later) 3000).
Proof.
  assert (H1 : Fixture.later <> []) by discriminate.
  assert (H2 : (1000 < 3000)%Z) by lia.
  assert (H3 : (1000 <= SpeedCollector.sum_rx Fixture.later)%Z) by (cbn; lia).
  assert (H4 : (400 <= SpeedCollector.sum_tx Fixture.later)%Z) by (cbn; lia).
  split; [exact H1|]. split; [exact H2|]. split; [exact H3|]. split; [exact H4|].
  exact (@revisions_agree_on_growing_counters unit tt 1000%Z 400%Z 1000%Z
           Fixture.later 3000%Z H1 H2 H3 H4).
Defined.

(** A fresh collector, a reading at 1000 ms and one at 3000 ms. *)
Lemma first_reading_is_zero_second_is_delta_over_seconds_witness :
  Fixture.earlier <> [] /\
  Fixture.later <> [] /\
  (1000 < 3000)%Z /\
  (SpeedCollector.sum_rx Fixture.earlier <= SpeedCollector.sum_rx Fixture.later)%Z /\
  (SpeedCollector.sum_tx Fixture.earlier <= SpeedCollector.sum_tx Fixture.later)%Z /\
  let '(s1, c1) :=
    SpeedCollector.calculateNetworkSpeed (SpeedCollector.mkCollector None)
      Fixture.earlier 1000 in
  let '(s2, _) := SpeedCollector.calculateNetworkSpeed c1 Fixture.later 3000 in
  s1 = mkSpeeds 0 0 /\
  upload s2 ==
    inject_Z (SpeedCollector.sum_tx Fixture.later - SpeedCollector.sum_tx Fixture.earlier)
    / seconds_between 3000 1000 /\
  download s2 ==
    inject_Z (SpeedCollector.sum_rx Fixture.later - SpeedCollector.sum_rx Fixture.earlier)
    / seconds_between 3000 1000.
Proof.
  assert (H1 : Fixture.earlier <> []) by discriminate.
  assert (H2 : Fixture.later <> []) by discriminate.
  assert (H3 : (1000 < 3000)%Z) by lia.
  assert (H4 : (SpeedCollector.sum_rx Fixture.earlier
                <= SpeedCollector.sum_rx Fixture.later)%Z) by (cbn; lia).
  assert (H5 : (SpeedCollector.sum_tx Fixture.earlier
                <= SpeedCollector.sum_tx Fixture.later)%Z) by (cbn; lia).
  split; [exact H1|]. split; [exact H2|]. split; [exact H3|].
  split; [exact H4|]. split; [exact H5|].
  exact (@first_reading_is_zero_second_is_delta_over_seconds Fixture.earlier
           Fixture.later 1000%Z 3000%Z H1 H2 H3 H4 H5).
Defined.

(** A quarter-full volume and an empty one. *)
Lemma diskUsage_is_a_percentage_witness :
  (forall disk, In disk Fixture.volumes ->
     (0 <= StaticCollector.fs_used disk <= StaticCollector.fs_size disk)%Z) /\
  0 <= StaticCollector.diskUsage Fixture.volumes <= inject_Z 100 /\
  (StaticCollector.totalDiskSize Fixture.volumes = 0%Z ->
   StaticCollector.diskUsage Fixture.volumes = 0).
Proof.
  assert (Hall : forall disk, In disk Fixture.volumes ->
            (0 <= StaticCollector.fs_used disk <= StaticCollector.fs_size disk)%Z).
  { intros disk [<- | [<- | []]]; cbn; lia. }
  split; [exact Hall|].
  exact (@diskUsage_is_a_percentage Fixture.volumes Hall).
Defined.
